(** * GitHub repository analyzer: a shallow embedding of
      [github_repo_analyzer.py] and the properties of its components.

    Conventions of the embedding.
    - A Python [str] is a [string]; a character is one of the 256 code
      points of [ascii].
    - A call that may raise returns an [outcome]: [Return v] or [Raise e].
    - A [dict] that is only looked up by key ([files_data], the file
      system) is a [gmap]; a [dict] whose iteration order is observed
      (a parsed JSON object) is an association list in insertion order.
    - The services the program talks to (the HTTP client, the JSON
      library, the language model) are the [Variable]s of a [Section]:
      every theorem holds for whatever they answer.
    - Console output ([print]) is not part of the embedding. *)

From Stdlib Require Import Ascii String List Bool Arith Lia.
From stdpp Require Import gmap strings list fin_maps.
Import ListNotations.


(** ** Exceptions and outcomes *)

Inductive exn_class :=
| ValueError
| JSONDecodeError
| TypeError
| AttributeError
| ConnectionError
| OSError
| OtherException (name : string).

(** An exception instance: its class and the text of [str(e)]. *)
Record exn := Exn { exn_cls : exn_class; exn_str : string }.

Inductive outcome (A : Type) :=
| Return (a : A)
| Raise (e : exn).
Arguments Return {A} a.
Arguments Raise {A} e.

#[global] Instance outcome_ret : MRet outcome := fun A a => Return a.

#[global] Instance outcome_bind : MBind outcome := fun A B k m =>
  match m with
  | Return a => k a
  | Raise e => Raise e
  end.

Definition returns {A} (m : outcome A) : Prop := exists a, m = Return a.

(** ** Python string methods *)

Module Str.

Definition in_chars (c : ascii) (cs : list ascii) : bool :=
  existsb (Ascii.eqb c) cs.

(** No character of [s] is in [cs]. *)
Definition free_of (cs : list ascii) (s : string) : bool :=
  forallb (fun c => negb (in_chars c cs)) (list_ascii_of_string s).

(** [s] is empty or starts with a character of [cs]. *)
Definition stops_at (cs : list ascii) (s : string) : bool :=
  match s with
  | EmptyString => true
  | String c _ => in_chars c cs
  end.

(** [s.startswith(p)] *)
Fixpoint startswith (s p : string) : bool :=
  match p, s with
  | EmptyString, _ => true
  | String a p', String b s' => Ascii.eqb a b && startswith s' p'
  | String _ _, EmptyString => false
  end.

(** [s.endswith(suf)]: some tail of [s] is [suf]. *)
Fixpoint endswith (s suf : string) : bool :=
  String.eqb s suf
  || match s with
     | EmptyString => false
     | String _ s' => endswith s' suf
     end.

(** The characters [str.strip()] removes: the code points below 256 for
    which [str.isspace()] holds. *)
Definition isspace (c : ascii) : bool :=
  let n := nat_of_ascii c in
  ((9 <=? n) && (n <=? 13)) || ((28 <=? n) && (n <=? 32))
  || (n =? 133) || (n =? 160).

Fixpoint lstrip (s : string) : string :=
  match s with
  | String c s' => if isspace c then lstrip s' else s
  | EmptyString => EmptyString
  end.

Fixpoint rstrip (s : string) : string :=
  match s with
  | String c s' =>
      match rstrip s' with
      | EmptyString => if isspace c then EmptyString else String c EmptyString
      | r => String c r
      end
  | EmptyString => EmptyString
  end.

(** [s.strip()] *)
Definition strip (s : string) : string := rstrip (lstrip s).

(** [s.replace(c, '')] for a one-character [c]. *)
Fixpoint remove_char (c : ascii) (s : string) : string :=
  match s with
  | String a s' =>
      if Ascii.eqb a c then remove_char c s' else String a (remove_char c s')
  | EmptyString => EmptyString
  end.

Definition cons_head (a : ascii) (l : list string) : list string :=
  match l with
  | w :: ws => String a w :: ws
  | [] => [String a EmptyString]
  end.

(** [s.split(c)] for a one-character separator [c]. *)
Fixpoint split_char (c : ascii) (s : string) : list string :=
  match s with
  | EmptyString => [EmptyString]
  | String a s' =>
      if Ascii.eqb a c then EmptyString :: split_char c s'
      else cons_head a (split_char c s')
  end.

(** [s.split(sep)] for a two-character separator [sep = c1 c2]: the
    occurrences are taken from the left and do not overlap. *)
Fixpoint split2 (c1 c2 : ascii) (s : string) : list string :=
  match s with
  | EmptyString => [EmptyString]
  | String a s' =>
      match s' with
      | String b s'' =>
          if Ascii.eqb a c1 && Ascii.eqb b c2
          then EmptyString :: split2 c1 c2 s''
          else cons_head a (split2 c1 c2 s')
      | EmptyString => [String a EmptyString]
      end
  end.

End Str.

(** ** The fragment of [re] the program uses

    Both patterns are a sequence of literal characters and capture groups
    of the shape [([^...]+)]: one or more characters outside a set,
    greedy, giving characters back on failure of what follows. *)

Module Re.

Inductive item :=
| Lit (c : ascii)
| Group_plus_not (excluded : list ascii).

Definition lits (s : string) : list item := map Lit (list_ascii_of_string s).

(** [([^excluded]+)] followed by the continuation [k]: [taken] is what the
    group holds so far; the longest run is tried first. *)
Fixpoint plus_greedy (k : string -> option (list string))
    (excluded : list ascii) (taken s : string) : option (list string) :=
  match s with
  | EmptyString => None
  | String c s' =>
      if Str.in_chars c excluded then None
      else
        let taken' := taken +:+ String c EmptyString in
        match plus_greedy k excluded taken' s' with
        | Some groups => Some groups
        | None => option_map (cons taken') (k s')
        end
  end.

(** The groups of a match of the pattern that starts at the head of the
    string. *)
Fixpoint match_here (p : list item) : string -> option (list string) :=
  match p with
  | [] => fun _ => Some []
  | Lit c :: p' => fun s =>
      match s with
      | String a s' => if Ascii.eqb a c then match_here p' s' else None
      | EmptyString => None
      end
  | Group_plus_not excluded :: p' => fun s =>
      plus_greedy (match_here p') excluded EmptyString s
  end.

(** [re.search(p, s)]: the match at the leftmost position that has one. *)
Fixpoint search (p : list item) (s : string) : option (list string) :=
  match match_here p s with
  | Some groups => Some groups
  | None =>
      match s with
      | EmptyString => None
      | String _ s' => search p s'
      end
  end.

(** [match.group(i)], [i >= 1]. *)
Definition group (m : list string) (i : nat) : string :=
  nth (i - 1) m EmptyString.

End Re.

(** ** URL parser *)

(** [r'git@github\.com:([^/]+)/([^/.]+)'] *)
Definition pattern_ssh : list Re.item :=
  Re.lits "git@github.com:" ++
  [Re.Group_plus_not ["/"%char]; Re.Lit "/"%char;
   Re.Group_plus_not ["/"%char; "."%char]].

(** [r'github\.com/([^/]+)/([^/.]+)'] *)
Definition pattern_https : list Re.item :=
  Re.lits "github.com/" ++
  [Re.Group_plus_not ["/"%char]; Re.Lit "/"%char;
   Re.Group_plus_not ["/"%char; "."%char]].

Definition invalid_url : exn := Exn ValueError "Invalid GitHub URL".

Definition parse_github_url (url : string) : outcome (string * string) :=
  let pattern :=
    if Str.startswith url "git@" then pattern_ssh else pattern_https in
  match Re.search pattern url with
  | None => Raise invalid_url
  | Some m => Return (Re.group m 1, Re.group m 2)
  end.

(** ** Repository tree entries and the relevance filter *)

(** One node of a directory listing; [type] is the string the hosting API
    sends (["file"], ["dir"], ["symlink"], ["submodule"]). *)
Record TreeEntry := {
  name : string;
  path : string;
  type : string;
  download_url : string
}.

Definition relevant_suffixes : list string :=
  ["README.md"; ".py"; ".js"; ".java"; "package.json"; "requirements.txt";
   "Dockerfile"].

(** [any(file["name"].endswith(ext) for ext in [...])] *)
Definition is_relevant (file : TreeEntry) : bool :=
  existsb (Str.endswith (name file)) relevant_suffixes.

(** The loop appends to [important_files], which starts empty. *)
Definition extract_relevant_files (repo_data : list TreeEntry) : list TreeEntry :=
  fold_left
    (fun important_files file =>
       if is_relevant file then important_files ++ [file] else important_files)
    repo_data [].

(** A name that ends with one of the seven literals. *)
Definition ends_with_literal (n : string) : Prop :=
  exists suf p,
    In suf ["README.md"; ".py"; ".js"; ".java"; "package.json";
            "requirements.txt"; "Dockerfile"]
    /\ n = p +:+ suf.

Definition file_named (n : string) : TreeEntry :=
  {| name := n; path := n; type := "file";
     download_url := "https://raw.githubusercontent.com/o/r/main/" +:+ n |}.

(** ** JSON values

    What [json.loads] returns. An object is a [dict]: its pairs in
    insertion order, keys distinct. A number keeps its lexeme. *)

#[warnings="-register-all"] Inductive json :=
| JNull
| JBool (b : bool)
| JNumber (lexeme : string)
| JString (s : string)
| JArray (elements : list json)
| JObject (items : list (string * json)).

(** ** Python operations on JSON values

    The operators the extractor applies to what [json.loads] returned,
    on every kind of value; the messages are those of CPython 3.12. *)

Module Py.

(** [d[key]] on the pairs of a dict. *)
Fixpoint lookup (key : string) (items : list (string * json)) : option json :=
  match items with
  | [] => None
  | (k, v) :: rest => if String.eqb k key then Some v else lookup key rest
  end.

(** [sub in s] for two strings. *)
Fixpoint contains (s sub : string) : bool :=
  Str.startswith s sub
  || match s with
     | EmptyString => false
     | String _ s' => contains s' sub
     end.

Definition is_float_lexeme (lexeme : string) : bool :=
  existsb (fun c => Str.in_chars c ["."; "e"; "E"; "n"; "N"]%char)
          (list_ascii_of_string lexeme).

(** [type(v).__name__] *)
Definition type_name (v : json) : string :=
  match v with
  | JNull => "NoneType"
  | JBool _ => "bool"
  | JNumber lexeme => if is_float_lexeme lexeme then "float" else "int"
  | JString _ => "str"
  | JArray _ => "list"
  | JObject _ => "dict"
  end.

Definition no_attribute (v : json) (attr : string) : exn :=
  Exn AttributeError
      ("'" +:+ type_name v +:+ "' object has no attribute '" +:+ attr +:+ "'").

(** [key in v] *)
Definition contains_key (key : string) (v : json) : outcome bool :=
  match v with
  | JObject items =>
      Return (match lookup key items with Some _ => true | None => false end)
  | JArray elements =>
      Return (existsb (fun x => match x with
                                | JString s => String.eqb s key
                                | _ => false
                                end) elements)
  | JString s => Return (contains s key)
  | _ => Raise (Exn TypeError
                    ("argument of type '" +:+ type_name v +:+ "' is not iterable"))
  end.

(** [v[key]] for a string [key] *)
Definition getitem (v : json) (key : string) : outcome json :=
  match v with
  | JObject items =>
      match lookup key items with
      | Some x => Return x
      | None => Raise (Exn (OtherException "KeyError") ("'" +:+ key +:+ "'"))
      end
  | JArray _ =>
      Raise (Exn TypeError "list indices must be integers or slices, not str")
  | JString _ =>
      Raise (Exn TypeError "string indices must be integers, not 'str'")
  | _ => Raise (Exn TypeError
                    ("'" +:+ type_name v +:+ "' object is not subscriptable"))
  end.

(** [v.items()] *)
Definition items (v : json) : outcome (list (string * json)) :=
  match v with
  | JObject its => Return its
  | _ => Raise (no_attribute v "items")
  end.

(** [v.replace(c, '')] for a one-character [c] *)
Definition replace (v : json) (c : ascii) : outcome string :=
  match v with
  | JString s => Return (Str.remove_char c s)
  | _ => Raise (no_attribute v "replace")
  end.

End Py.

(** ** Dependency extractor *)

Module Dependency.
Record t := { name : string; version : string; description : string }.
End Dependency.

Record deps_json := { dependencies : list Dependency.t }.

Definition frontend_description : string :=
  "Used in the frontend. Part of the React/Node.js ecosystem.".

Definition backend_description : string :=
  "Used in the Python backend/agent system.".

Definition newline : ascii := "010"%char.

Definition class_eqb (a b : exn_class) : bool :=
  match a, b with
  | ValueError, ValueError
  | JSONDecodeError, JSONDecodeError
  | TypeError, TypeError
  | AttributeError, AttributeError
  | ConnectionError, ConnectionError
  | OSError, OSError => true
  | OtherException x, OtherException y => String.eqb x y
  | _, _ => false
  end.

(** [except cls] catches the instances of [cls] and of its subclasses;
    [JSONDecodeError] is a subclass of [ValueError]. *)
Definition catches (cls : exn_class) (e : exn) : bool :=
  class_eqb (exn_cls e) cls
  || (class_eqb cls ValueError && class_eqb (exn_cls e) JSONDecodeError).

Section Extractor.

(** [json.loads]: raises [JSONDecodeError] on a text that is not JSON. *)
Variable json_loads : string -> outcome json.

(** The [for name, version in ...items()] loop. [dependencies] is mutated
    in place: the entries appended before an exception stay in it. *)
Fixpoint package_json_loop (items : list (string * json))
    (dependencies : list Dependency.t) : list Dependency.t * option exn :=
  match items with
  | [] => (dependencies, None)
  | (name, version) :: rest =>
      match (v ← Py.replace version "^"%char;
             Return (Str.remove_char "~"%char v)) with
      | Raise e => (dependencies, Some e)
      | Return version =>
          package_json_loop rest
            (dependencies ++
             [{| Dependency.name := name;
                 Dependency.version := version;
                 Dependency.description := frontend_description |}])
      end
  end.

(** The body of the [try]. *)
Definition package_json_body (text : string)
    (dependencies : list Dependency.t) : list Dependency.t * option exn :=
  match json_loads text with
  | Raise e => (dependencies, Some e)
  | Return package_json =>
      match Py.contains_key "dependencies" package_json with
      | Raise e => (dependencies, Some e)
      | Return false => (dependencies, None)
      | Return true =>
          match (d ← Py.getitem package_json "dependencies"; Py.items d) with
          | Raise e => (dependencies, Some e)
          | Return items => package_json_loop items dependencies
          end
      end
  end.

(** [try: ... except json.JSONDecodeError: ...] *)
Definition package_json_part (text : string)
    (dependencies : list Dependency.t) : list Dependency.t * option exn :=
  match package_json_body text dependencies with
  | (dependencies, Some e) =>
      if catches JSONDecodeError e then (dependencies, None)
      else (dependencies, Some e)
  | done => done
  end.

(** One turn of the loop over the lines of requirements.txt. *)
Definition requirements_line (dependencies : list Dependency.t)
    (line : string) : list Dependency.t :=
  if negb (String.eqb (Str.strip line) "") && negb (Str.startswith line "#")
  then
    match Str.split2 "="%char "="%char line with
    | [name; version] =>
        dependencies ++
        [{| Dependency.name := Str.strip name;
            Dependency.version := Str.strip version;
            Dependency.description := backend_description |}]
    | _ => dependencies
    end
  else dependencies.

Definition extract_dependencies (files_data : gmap string string)
  : outcome deps_json :=
  let dependencies := [] in
  let '(dependencies, raised) :=
    match files_data !! "package.json" with
    | Some text => package_json_part text dependencies
    | None => (dependencies, None)
    end in
  match raised with
  | Some e => Raise e
  | None =>
      let dependencies :=
        match files_data !! "requirements.txt" with
        | Some text =>
            fold_left requirements_line (Str.split_char newline text)
                      dependencies
        | None => dependencies
        end in
      Return {| dependencies := dependencies |}
  end.

End Extractor.

(** ** A JSON reader for the concrete manifests of this file

    [json_loads] is an instance of the [json_loads] the extractor is
    parametrised by: objects, arrays, strings with the two-character
    escapes, numbers and the three literals. A repeated key keeps its
    first position and its last value, as in a [dict]. *)

Module JsonBasic.

Definition quote : ascii := "034"%char.
Definition backslash : ascii := "092"%char.

Fixpoint skip_ws (s : string) : string :=
  match s with
  | String c s' =>
      if Str.in_chars c [" "; "009"; "010"; "013"]%char then skip_ws s' else s
  | EmptyString => EmptyString
  end.

Definition unescape (c : ascii) : option ascii :=
  if Ascii.eqb c quote then Some quote
  else if Ascii.eqb c backslash then Some backslash
  else if Ascii.eqb c "/" then Some "/"%char
  else if Ascii.eqb c "b" then Some "008"%char
  else if Ascii.eqb c "f" then Some "012"%char
  else if Ascii.eqb c "n" then Some "010"%char
  else if Ascii.eqb c "r" then Some "013"%char
  else if Ascii.eqb c "t" then Some "009"%char
  else None.

(** The characters after an opening quote, up to the closing one. *)
Fixpoint parse_string (s : string) : option (string * string) :=
  match s with
  | EmptyString => None
  | String c s' =>
      if Ascii.eqb c quote then Some (EmptyString, s')
      else if Ascii.eqb c backslash then
        match s' with
        | String e s'' =>
            match unescape e, parse_string s'' with
            | Some ch, Some (str, rest) => Some (String ch str, rest)
            | _, _ => None
            end
        | EmptyString => None
        end
      else if nat_of_ascii c <? 32 then None
      else match parse_string s' with
           | Some (str, rest) => Some (String c str, rest)
           | None => None
           end
  end.

Definition is_digit (c : ascii) : bool :=
  Str.in_chars c (list_ascii_of_string "0123456789").

Fixpoint digits (s : string) : string * string :=
  match s with
  | String c s' =>
      if is_digit c
      then let '(ds, rest) := digits s' in (String c ds, rest)
      else (EmptyString, s)
  | EmptyString => (EmptyString, EmptyString)
  end.

(** One or more digits after the mark [c], if [s] starts with [c]. *)
Definition marked_digits (marks : list ascii) (signed : bool) (s : string)
  : option (string * string) :=
  match s with
  | String c s' =>
      if Str.in_chars c marks then
        let '(sign, s'') :=
          match s' with
          | String d r =>
              if signed && Str.in_chars d ["+"; "-"]%char
              then (String d EmptyString, r) else (EmptyString, s')
          | EmptyString => (EmptyString, s')
          end in
        match digits s'' with
        | (EmptyString, _) => None
        | (ds, rest) => Some (String c (sign +:+ ds), rest)
        end
      else Some (EmptyString, s)
  | EmptyString => Some (EmptyString, s)
  end.

(** A JSON number: an optional minus, a whole part without a leading
    zero, an optional fraction, an optional exponent. *)
Definition number_lexeme (s : string) : option (string * string) :=
  let '(minus, s1) :=
    match s with
    | String c r => if Ascii.eqb c "-" then ("-", r) else (EmptyString, s)
    | EmptyString => (EmptyString, s)
    end in
  let whole :=
    match s1 with
    | String c r =>
        if Ascii.eqb c "0" then Some ("0", r)
        else match digits s1 with
             | (EmptyString, _) => None
             | found => Some found
             end
    | EmptyString => None
    end in
  match whole with
  | None => None
  | Some (int, s2) =>
      match marked_digits ["."]%char false s2 with
      | None => None
      | Some (frac, s3) =>
          match marked_digits ["e"; "E"]%char true s3 with
          | None => None
          | Some (exp, s4) => Some (minus +:+ int +:+ frac +:+ exp, s4)
          end
      end
  end.

Fixpoint dict_set (key : string) (v : json) (items : list (string * json))
  : list (string * json) :=
  match items with
  | [] => [(key, v)]
  | (k, x) :: rest =>
      if String.eqb k key then (k, v) :: rest
      else (k, x) :: dict_set key v rest
  end.

Definition literal (word : string) (v : json) (s : string)
  : option (json * string) :=
  if Str.startswith s word
  then Some (v, String.substring (String.length word)
                                 (String.length s - String.length word) s)
  else None.

Fixpoint parse_value (fuel : nat) (s : string) {struct fuel}
  : option (json * string) :=
  match fuel with
  | 0 => None
  | S fuel =>
      match skip_ws s with
      | EmptyString => None
      | String c r =>
          if Ascii.eqb c "{" then
            match skip_ws r with
            | String c' r' =>
                if Ascii.eqb c' "}" then Some (JObject [], r')
                else parse_members fuel (String c' r') []
            | EmptyString => None
            end
          else if Ascii.eqb c "[" then
            match skip_ws r with
            | String c' r' =>
                if Ascii.eqb c' "]" then Some (JArray [], r')
                else parse_elements fuel (String c' r') []
            | EmptyString => None
            end
          else if Ascii.eqb c quote then
            match parse_string r with
            | Some (str, rest) => Some (JString str, rest)
            | None => None
            end
          else if Ascii.eqb c "t" then literal "true" (JBool true) (String c r)
          else if Ascii.eqb c "f" then literal "false" (JBool false) (String c r)
          else if Ascii.eqb c "n" then literal "null" JNull (String c r)
          else
            match number_lexeme (String c r) with
            | Some (lexeme, rest) => Some (JNumber lexeme, rest)
            | None => None
            end
      end
  end
with parse_members (fuel : nat) (s : string) (acc : list (string * json))
    {struct fuel} : option (json * string) :=
  match fuel with
  | 0 => None
  | S fuel =>
      match s with
      | String q r =>
          if Ascii.eqb q quote then
            match parse_string r with
            | Some (key, r1) =>
                match skip_ws r1 with
                | String colon r2 =>
                    if Ascii.eqb colon ":" then
                      match parse_value fuel r2 with
                      | Some (v, r3) =>
                          let acc := dict_set key v acc in
                          match skip_ws r3 with
                          | String d r4 =>
                              if Ascii.eqb d "," then
                                parse_members fuel (skip_ws r4) acc
                              else if Ascii.eqb d "}" then Some (JObject acc, r4)
                              else None
                          | EmptyString => None
                          end
                      | None => None
                      end
                    else None
                | EmptyString => None
                end
            | None => None
            end
          else None
      | EmptyString => None
      end
  end
with parse_elements (fuel : nat) (s : string) (acc : list json)
    {struct fuel} : option (json * string) :=
  match fuel with
  | 0 => None
  | S fuel =>
      match parse_value fuel s with
      | Some (v, r) =>
          match skip_ws r with
          | String d r' =>
              if Ascii.eqb d "," then parse_elements fuel r' (acc ++ [v])
              else if Ascii.eqb d "]" then Some (JArray (acc ++ [v]), r')
              else None
          | EmptyString => None
          end
      | None => None
      end
  end.

(** Every malformed text gets the message of the simplest case. *)
Definition decode_error : exn :=
  Exn JSONDecodeError "Expecting value: line 1 column 1 (char 0)".

Definition json_loads (text : string) : outcome json :=
  match parse_value (S (String.length text)) text with
  | Some (v, rest) =>
      match skip_ws rest with
      | EmptyString => Return v
      | String _ _ => Raise decode_error
      end
  | None => Raise decode_error
  end.

Definition hex_digit (n : nat) : ascii :=
  nth n (list_ascii_of_string "0123456789abcdef") "0"%char.

(** One character of a string, as [json.dumps] writes it. *)
Definition escape (c : ascii) : string :=
  let n := nat_of_ascii c in
  if Ascii.eqb c quote then String backslash (String quote EmptyString)
  else if Ascii.eqb c backslash then String backslash (String backslash EmptyString)
  else if n =? 10 then String backslash "n"
  else if n =? 13 then String backslash "r"
  else if n =? 9 then String backslash "t"
  else if n =? 8 then String backslash "b"
  else if n =? 12 then String backslash "f"
  else if (n <? 32) || (126 <? n) then
    String backslash
      (String "u" (String "0" (String "0"
         (String (hex_digit (n / 16)) (String (hex_digit (n mod 16)) EmptyString)))))
  else String c EmptyString.

Fixpoint escape_string (s : string) : string :=
  match s with
  | String c s' => escape c +:+ escape_string s'
  | EmptyString => EmptyString
  end.

Definition quoted (s : string) : string :=
  String quote (escape_string s) +:+ String quote EmptyString.

Fixpoint pad (level : nat) : string :=
  match level with
  | 0 => EmptyString
  | S level => "  " +:+ pad level
  end.

Definition line_break (level : nat) : string :=
  String newline (pad level).

(** [json.dumps(v, indent=2)], the value standing at depth [level]. *)
Fixpoint dumps (level : nat) (v : json) {struct v} : string :=
  match v with
  | JNull => "null"
  | JBool true => "true"
  | JBool false => "false"
  | JNumber lexeme => lexeme
  | JString s => quoted s
  | JArray [] => "[]"
  | JArray (x :: xs) =>
      "[" +:+ line_break (S level) +:+ dumps (S level) x
      +:+ (fix rest (xs : list json) : string :=
             match xs with
             | [] => EmptyString
             | y :: ys =>
                 "," +:+ line_break (S level) +:+ dumps (S level) y +:+ rest ys
             end) xs
      +:+ line_break level +:+ "]"
  | JObject [] => "{}"
  | JObject ((k, x) :: items) =>
      "{" +:+ line_break (S level) +:+ quoted k +:+ ": " +:+ dumps (S level) x
      +:+ (fix rest (items : list (string * json)) : string :=
             match items with
             | [] => EmptyString
             | (k', y) :: items' =>
                 "," +:+ line_break (S level) +:+ quoted k' +:+ ": "
                 +:+ dumps (S level) y +:+ rest items'
             end) items
      +:+ line_break level +:+ "}"
  end.

Definition json_dumps (v : json) : string := dumps 0 v.

(** The content map, its keys in the order of the map. *)
Definition json_dumps_files (files_data : gmap string string) : string :=
  json_dumps (JObject (map (fun '(k, v) => (k, JString v))
                           (map_to_list files_data))).

(** JSON texts are written with ['] for the double quote. *)
Fixpoint dq (s : string) : string :=
  match s with
  | String c s' => String (if Ascii.eqb c "'" then quote else c) (dq s')
  | EmptyString => EmptyString
  end.

End JsonBasic.

(** ** The dependency list, as the specification words it

    These definitions follow the text of the specification; the theorems
    compare them with [extract_dependencies]. *)

Module Stated.

(** [s] without its leading characters of [cs]. *)
Fixpoint strip_leading (cs : list ascii) (s : string) : string :=
  match s with
  | String c s' => if Str.in_chars c cs then strip_leading cs s' else s
  | EmptyString => EmptyString
  end.

(** [s] without any character of [cs]. *)
Fixpoint without_chars (cs : list ascii) (s : string) : string :=
  match s with
  | String c s' =>
      if Str.in_chars c cs then without_chars cs s'
      else String c (without_chars cs s')
  | EmptyString => EmptyString
  end.

Definition frontend (name version : string) : Dependency.t :=
  {| Dependency.name := name; Dependency.version := version;
     Dependency.description := frontend_description |}.

Definition backend (name version : string) : Dependency.t :=
  {| Dependency.name := name; Dependency.version := version;
     Dependency.description := backend_description |}.

(** The entries of a [dependencies] object whose values are strings. *)
Definition string_items (entries : list (string * string))
  : list (string * json) :=
  map (fun '(n, v) => (n, JString v)) entries.

(** A line is blank when it holds white space only. *)
Definition is_blank (line : string) : bool :=
  forallb Str.isspace (list_ascii_of_string line).

(** The text before and after the leftmost [c1 c2]. *)
Fixpoint find2 (c1 c2 : ascii) (s : string) : option (string * string) :=
  match s with
  | String a s' =>
      match s' with
      | String b s'' =>
          if Ascii.eqb a c1 && Ascii.eqb b c2 then Some (EmptyString, s'')
          else match find2 c1 c2 s' with
               | Some (x, y) => Some (String a x, y)
               | None => None
               end
      | EmptyString => None
      end
  | EmptyString => None
  end.

(** A line with an exact [==] pin: one [==], and none after it. *)
Definition exact_pin (line : string) : option (string * string) :=
  match find2 "="%char "="%char line with
  | Some (n, v) =>
      match find2 "="%char "="%char v with
      | None => Some (n, v)
      | Some _ => None
      end
  | None => None
  end.

Definition requirement (line : string) : list Dependency.t :=
  if is_blank line || Str.startswith line "#" then []
  else match exact_pin line with
       | Some (n, v) => [backend (Str.strip n) (Str.strip v)]
       | None => []
       end.

(** The entries of a requirements.txt, in line order. *)
Definition requirements (text : option string) : list Dependency.t :=
  match text with
  | Some text => flat_map requirement (Str.split_char newline text)
  | None => []
  end.

Section Manifest.

Variable json_loads : string -> outcome json.

(** One entry of the manifest; a version that is not a string has no
    [replace]. *)
Definition manifest_entry (entry : string * json) : outcome Dependency.t :=
  match entry with
  | (n, JString v) => Return (frontend n (without_chars ["^"; "~"]%char v))
  | (_, v) => Raise (Py.no_attribute v "replace")
  end.

Fixpoint manifest_entries (items : list (string * json))
  : outcome (list Dependency.t) :=
  match items with
  | [] => Return []
  | entry :: rest =>
      d ← manifest_entry entry;
      ds ← manifest_entries rest;
      Return (d :: ds)
  end.

(** The entries of a package.json, in declaration order. *)
Definition manifest (text : option string) : outcome (list Dependency.t) :=
  match text with
  | None => Return []
  | Some text =>
      match json_loads text with
      | Raise e => if catches JSONDecodeError e then Return [] else Raise e
      | Return package_json =>
          declared ← Py.contains_key "dependencies" package_json;
          if declared : bool then
            d ← Py.getitem package_json "dependencies";
            items ← Py.items d;
            manifest_entries items
          else Return []
      end
  end.

End Manifest.

End Stated.

Definition unlines (lines : list string) : string :=
  String.concat (String newline EmptyString) lines.

(** ** The manifests of the examples *)

Definition caret_manifest : gmap string string :=
  {[ "package.json" :=
       JsonBasic.dq "{'dependencies': {'eslint': '^7.0.0 || ^8.0.0'}}" ]}.

Definition react_manifest_data : gmap string string :=
  {[ "package.json" := JsonBasic.dq "{'dependencies': {'react': '^18.2.0'}}" ]}.

Definition broken_manifest_data : gmap string string :=
  {[ "package.json" := "{'dependencies': " ]}.

Definition flask_requirements : gmap string string :=
  {[ "requirements.txt" := unlines ["flask==2.0.1"; "numpy"; "# comment"] ]}.

(** ** The services the program calls *)

Module Http.
(** What [requests.get] returns: the status, the decoded body of a
    directory listing ([response.json()]) and the body as text. The
    embedding covers answers of the shape the hosting API documents: the
    body of a 200 answer to a listing request is a list of entries. A body
    of another shape, on which [response.json()] or a subscript of the
    scan raises, has no counterpart here, and no statement of this file
    speaks of it. *)
Record Response := {
  status_code : nat;
  json : list TreeEntry;
  text : string
}.
End Http.

Module Genai.
(** What [generate_content] returns: its truth value and its [text]
    property, which may raise. *)
Record Response := {
  truthy : bool;
  text : outcome string
}.
End Genai.

(** The file system: the text of each file, and the paths that cannot be
    opened for writing. *)
Record FileSystem := {
  contents : gmap string string;
  unwritable : gset string
}.

(** [with open(path, 'w') as f: json.dump(...)] *)
Definition write_file (path text : string) (fs : FileSystem)
  : FileSystem * outcome unit :=
  if decide (path ∈ unwritable fs)
  then (fs, Raise (Exn OSError
                       ("[Errno 13] Permission denied: '" +:+ path +:+ "'")))
  else ({| contents := <[path := text]> (contents fs);
           unwritable := unwritable fs |}, Return tt).

Definition output_file : string := "repo_analysis.json".

Definition model_name : string := "models/gemini-2.0-flash-lite".

Definition dependency_json (d : Dependency.t) : json :=
  JObject [("name", JString (Dependency.name d));
           ("version", JString (Dependency.version d));
           ("description", JString (Dependency.description d))].

(** The [output] dict of [summarize_repo]. *)
Definition analysis_result (summary : string) (deps : list Dependency.t)
  : json :=
  JObject [("summary", JString summary);
           ("dependencies", JArray (map dependency_json deps))].

Definition prompt_lines : list string :=
  [ "";
    "        The following are files from a GitHub repo. Summarize what the repo does.";
    "        Provide:";
    "        - Project purpose by file";
    "        - Key functionalities";
    "        - Tech stack/packages";
    "        - How to use it";
    "";
    "        Files:";
    "        " ].

Section Program.

(** [json.loads], [json.dumps(_, indent=2)] on a value and on the content
    map. *)
Variable json_loads : string -> outcome json.
Variable json_dumps : json -> string.
Variable json_dumps_files : gmap string string -> string.

(** The module-level [headers] and [requests.get]; an unauthenticated
    request has no header. *)
Variable headers : list (string * string).
Variable requests_get : string -> list (string * string) -> outcome Http.Response.

(** [genai.GenerativeModel] and [model.generate_content]. *)
Variable model : Type.
Variable GenerativeModel : string -> outcome model.
Variable generate_content : model -> string -> outcome Genai.Response.

Definition contents_url (owner repo path : string) : string :=
  "https://api.github.com/repos/" +:+ owner +:+ "/" +:+ repo
  +:+ "/contents/" +:+ path.

Definition get_repo_contents (owner repo path : string)
  : outcome (list TreeEntry) :=
  response ← requests_get (contents_url owner repo path) headers;
  if Http.status_code response =? 200
  then Return (Http.json response)
  else Return [].

(** The [for item in items] loop of [scan_directory]; [scan] is the
    recursive call. A run that needs more recursion than the fuel allows
    has no result ([None]). *)
Fixpoint scan_items (scan : string -> option (outcome (list TreeEntry)))
    (items all_items : list TreeEntry) : option (outcome (list TreeEntry)) :=
  match items with
  | [] => Some (Return all_items)
  | item :: rest =>
      if String.eqb (type item) "file" then
        scan_items scan rest (all_items ++ [item])
      else if String.eqb (type item) "dir" then
        match scan (path item) with
        | None => None
        | Some (Raise e) => Some (Raise e)
        | Some (Return dir_items) =>
            scan_items scan rest
              (match dir_items with
               | [] => all_items
               | _ :: _ => all_items ++ dir_items
               end)
        end
      else scan_items scan rest all_items
  end.

Fixpoint scan_directory (fuel : nat) (owner repo path : string)
  : option (outcome (list TreeEntry)) :=
  match fuel with
  | 0 => None
  | S fuel =>
      match get_repo_contents owner repo path with
      | Raise e => Some (Raise e)
      | Return [] => Some (Return [])
      | Return items => scan_items (scan_directory fuel owner repo) items []
      end
  end.

Definition scan_repo (fuel : nat) (owner repo : string)
  : option (outcome (list TreeEntry)) :=
  scan_directory fuel owner repo "".

Definition get_file_content (url : string) : outcome string :=
  response ← requests_get url [];
  if Http.status_code response =? 200
  then Return (Http.text response)
  else Return "".

Definition prompt (files_data : gmap string string) : string :=
  unlines prompt_lines +:+ json_dumps_files files_data
  +:+ unlines [""; "        "].

(** The body of the [try] of [summarize_repo]. *)
Definition summarize_repo_body (files_data : gmap string string)
    (fs : FileSystem) : FileSystem * outcome string :=
  match GenerativeModel model_name with
  | Raise e => (fs, Raise e)
  | Return m =>
      match extract_dependencies json_loads files_data with
      | Raise e => (fs, Raise e)
      | Return deps_json =>
          match generate_content m (prompt files_data) with
          | Raise e => (fs, Raise e)
          | Return response =>
              if Genai.truthy response then
                match Genai.text response with
                | Raise e => (fs, Raise e)
                | Return summary =>
                    let output :=
                      analysis_result summary (dependencies deps_json) in
                    match write_file output_file (json_dumps output) fs with
                    | (fs, Raise e) => (fs, Raise e)
                    | (fs, Return _) => (fs, Return (json_dumps output))
                    end
                end
              else (fs, Return "")
          end
      end
  end.

(** [try: ... except Exception as e: return f"Error ...: {str(e)}"] *)
Definition summarize_repo (files_data : gmap string string)
    (fs : FileSystem) : FileSystem * outcome string :=
  match summarize_repo_body files_data fs with
  | (fs, Raise e) => (fs, Return ("Error generating summary: " +:+ exn_str e))
  | done => done
  end.

(** [{file["name"]: get_file_content(file["download_url"]) for file in
    relevant_files}] *)
Fixpoint fetch_contents (relevant_files : list TreeEntry)
    (files_content : gmap string string) : outcome (gmap string string) :=
  match relevant_files with
  | [] => Return files_content
  | file :: rest =>
      content ← get_file_content (download_url file);
      fetch_contents rest (<[name file := content]> files_content)
  end.

(** The result is [Some summary], or [None] for Python's [None]. *)
Definition analyze_github_repo (fuel : nat) (github_url : string)
    (fs : FileSystem) : option (FileSystem * option string) :=
  match parse_github_url github_url with
  | Raise _ => Some (fs, None)
  | Return (owner, repo) =>
      match scan_repo fuel owner repo with
      | None => None
      | Some (Raise _) => Some (fs, None)
      | Some (Return repo_data) =>
          let relevant_files := extract_relevant_files repo_data in
          match fetch_contents relevant_files ∅ with
          | Raise _ => Some (fs, None)
          | Return files_content =>
              match summarize_repo files_content fs with
              | (fs, Return summary) => Some (fs, Some summary)
              | (fs, Raise _) => Some (fs, None)
              end
          end
      end
  end.

End Program.

(** ** The repository tree behind the listing requests

    Stated from the specification: a listing that does not answer with
    status 200 is an empty sub-tree; the files of the tree are reached
    through directories; the flattened result is the depth-first
    sequence of the files. *)

Module Tree.

(** The files an entry stands for: itself, or those under it. *)
Definition files_of (sub : string -> list TreeEntry) (item : TreeEntry)
  : list TreeEntry :=
  if String.eqb (type item) "file" then [item]
  else if String.eqb (type item) "dir" then sub (path item)
  else [].

Section Traversal.

Variable headers : list (string * string).
Variable requests_get : string -> list (string * string) -> outcome Http.Response.
Variables owner repo : string.

(** The entries under [path]. *)
Definition listing (path : string) : list TreeEntry :=
  match requests_get (contents_url owner repo path) headers with
  | Return response =>
      if Http.status_code response =? 200 then Http.json response else []
  | Raise _ => []
  end.

(** The listing request for [path] fails with a non-success status. *)
Definition listing_fails (path : string) : Prop :=
  exists response,
    requests_get (contents_url owner repo path) headers = Return response
    /\ Http.status_code response <> 200.

(** [reachable p f]: the file [f] is listed under [p], or under a
    directory that is reachable in the same way. *)
Inductive reachable : string -> TreeEntry -> Prop :=
| reachable_file p f :
    In f (listing p) -> type f = "file" -> reachable p f
| reachable_dir p d f :
    In d (listing p) -> type d = "dir" -> reachable (path d) f ->
    reachable p f.

(** [depth_le n p]: the tree under [p] has at most [n] levels of
    listings. *)
Inductive depth_le : nat -> string -> Prop :=
| depth_le_S n p :
    (forall d, In d (listing p) -> type d = "dir" -> depth_le n (path d)) ->
    depth_le (S n) p.

(** The requests of the scan are answered, with whatever status. *)
Definition answered : Prop :=
  forall p, returns (requests_get (contents_url owner repo p) headers).

(** The files under [p], depth first, through at most [n] levels. *)
Fixpoint flatten (n : nat) (p : string) : list TreeEntry :=
  match n with
  | 0 => []
  | S n => flat_map (files_of (flatten n)) (listing p)
  end.

End Traversal.
End Tree.

(** ** A repository with a directory whose listing fails *)

Module Demo.

Definition readme : TreeEntry :=
  {| name := "README.md"; path := "README.md"; type := "file";
     download_url := "https://raw.githubusercontent.com/octo/demo/main/README.md" |}.

Definition broken : TreeEntry :=
  {| name := "broken"; path := "broken"; type := "dir"; download_url := "" |}.

Definition src : TreeEntry :=
  {| name := "src"; path := "src"; type := "dir"; download_url := "" |}.

Definition app_py : TreeEntry :=
  {| name := "app.py"; path := "src/app.py"; type := "file";
     download_url := "https://raw.githubusercontent.com/octo/demo/main/src/app.py" |}.

(** The root lists a file and two directories; the listing of [broken]
    answers 404, as does every other request. *)
Definition requests_get (url : string) (headers : list (string * string))
  : outcome Http.Response :=
  if String.eqb url (contents_url "octo" "demo" "") then
    Return {| Http.status_code := 200; Http.json := [readme; broken; src];
              Http.text := "" |}
  else if String.eqb url (contents_url "octo" "demo" "src") then
    Return {| Http.status_code := 200; Http.json := [app_py]; Http.text := "" |}
  else
    Return {| Http.status_code := 404; Http.json := []; Http.text := "Not Found" |}.

(** A client whose requests cannot reach the network. *)
Definition unreachable (url : string) (headers : list (string * string))
  : outcome Http.Response :=
  Raise (Exn ConnectionError "Failed to establish a new connection").

Definition empty_fs : FileSystem := {| contents := ∅; unwritable := ∅ |}.

Definition GenerativeModel (name : string) : outcome unit := Return tt.

(** Three language models: out of quota, answering with a falsy
    response, answering with a text. *)
Definition quota_exceeded : exn :=
  Exn (OtherException "ResourceExhausted") "429 Resource has been exhausted".

Definition llm_out_of_quota (m : unit) (prompt : string)
  : outcome Genai.Response :=
  Raise quota_exceeded.

Definition llm_falsy (m : unit) (prompt : string) : outcome Genai.Response :=
  Return {| Genai.truthy := false; Genai.text := Return "" |}.

Definition llm_answering (m : unit) (prompt : string)
  : outcome Genai.Response :=
  Return {| Genai.truthy := true; Genai.text := Return "Nothing to summarize." |}.

End Demo.

(** ** More inputs for the examples *)

Module Inputs.

(** A content map with both manifests and a source file. *)
Definition both_manifests : gmap string string :=
  {[ "package.json" :=
       JsonBasic.dq "{'dependencies': {'react': '^18.2.0', 'vite': '~5.0.1'}}";
     "requirements.txt" := unlines ["flask==2.0.1"; " requests == 2.31.0 "];
     "app.py" := "print('==')" ]}.

(** A manifest with development dependencies only. *)
Definition dev_only : gmap string string :=
  {[ "package.json" := JsonBasic.dq "{'devDependencies': {'jest': '^29.0.0'}}";
     "requirements.txt" := "flask==2.0.1" ]}.

(** A manifest with a version that is a number. *)
Definition numeric_version : gmap string string :=
  {[ "package.json" := JsonBasic.dq "{'dependencies': {'a': '^1.0.0', 'b': 2}}";
     "requirements.txt" := "flask==2.0.1" ]}.

(** A manifest whose [dependencies] is a list. *)
Definition listed_dependencies : gmap string string :=
  {[ "package.json" := JsonBasic.dq "{'dependencies': ['react']}" ]}.

(** A manifest that is the JSON literal [null]. *)
Definition null_manifest : gmap string string :=
  {[ "package.json" := "null"; "requirements.txt" := "flask==2.0.1" ]}.

(** A second README, in a sub-directory. *)
Definition docs_readme : TreeEntry :=
  {| name := "README.md"; path := "docs/README.md"; type := "file";
     download_url :=
       "https://raw.githubusercontent.com/octo/demo/main/docs/README.md" |}.

(** A file whose download times out. *)
Definition setup_py : TreeEntry :=
  {| name := "setup.py"; path := "setup.py"; type := "file";
     download_url :=
       "https://raw.githubusercontent.com/octo/demo/main/setup.py" |}.

Definition timeout : exn :=
  Exn ConnectionError "Read timed out.".

(** The raw contents of the demo repository: the two READMEs are there,
    [app.py] answers 404 and any other address times out. *)
Definition raw_get (url : string) (headers : list (string * string))
  : outcome Http.Response :=
  if String.eqb url (download_url Demo.readme) then
    Return {| Http.status_code := 200; Http.json := []; Http.text := "# demo" |}
  else if String.eqb url (download_url docs_readme) then
    Return {| Http.status_code := 200; Http.json := []; Http.text := "# docs" |}
  else if String.eqb url (download_url Demo.app_py) then
    Return {| Http.status_code := 404; Http.json := [];
              Http.text := "404: Not Found" |}
  else Raise timeout.

(** The listings of the demo repository, except that the request for
    [src] times out. *)
Definition flaky_get (url : string) (headers : list (string * string))
  : outcome Http.Response :=
  if String.eqb url (contents_url "octo" "demo" "src") then Raise timeout
  else Demo.requests_get url headers.

(** The hosting API answers as in the demo repository; the host of the
    raw contents cannot be reached. *)
Definition raw_offline (url : string) (headers : list (string * string))
  : outcome Http.Response :=
  if Str.startswith url "https://api.github.com/"
  then Demo.requests_get url headers
  else Raise timeout.

(** A file system in which the output file cannot be opened for writing. *)
Definition read_only_fs : FileSystem :=
  {| contents := ∅; unwritable := {[ output_file ]} |}.

(** A file system with notes and the result of an earlier run. *)
Definition used_fs : FileSystem :=
  {| contents := {[ "notes.txt" := "keep me"; output_file := "{}" ]};
     unwritable := ∅ |}.

End Inputs.

(** ** The script entry *)

Section Main.

Variable json_loads : string -> outcome json.
Variable json_dumps : json -> string.
Variable json_dumps_files : gmap string string -> string.
Variable headers : list (string * string).
Variable requests_get : string -> list (string * string) -> outcome Http.Response.
Variable model : Type.
Variable GenerativeModel : string -> outcome model.
Variable generate_content : model -> string -> outcome Genai.Response.

(** The [__main__] block: [typed] is what [input] gives, a line or the
    exception it raises (end of input, an interrupt); the result is the
    exit status of the process. Both handlers print and fall through;
    [exit(1)] is caught by neither. *)
Definition main (fuel : nat) (typed : outcome string) (fs : FileSystem)
  : option (FileSystem * nat) :=
  match typed with
  | Raise _ => Some (fs, 0)
  | Return github_url =>
      if String.eqb github_url "" then Some (fs, 1)
      else
        match analyze_github_repo json_loads json_dumps json_dumps_files
                headers requests_get model GenerativeModel generate_content
                fuel github_url fs with
        | None => None
        | Some (fs, _) => Some (fs, 0)
        end
  end.

End Main.

(** * Properties *)

(** ** The string methods *)

Lemma append_nil_l (s : string) : "" +:+ s = s.
Proof. reflexivity. Qed.

Lemma append_cons (c : ascii) (s t : string) :
  String c s +:+ t = String c (s +:+ t).
Proof. reflexivity. Qed.

Lemma append_empty_r (s : string) : s +:+ "" = s.
Proof.
  induction s as [|c s IH]; [reflexivity |].
  now rewrite append_cons, IH.
Qed.

Lemma append_assoc (a b c : string) : (a +:+ b) +:+ c = a +:+ (b +:+ c).
Proof.
  induction a as [|x a IH]; [reflexivity |].
  now rewrite !append_cons, IH.
Qed.

(** [endswith] is the suffix relation. *)
Lemma endswith_spec (s suf : string) :
  Str.endswith s suf = true <-> exists p, s = p +:+ suf.
Proof.
  induction s as [|c s IH]; cbn [Str.endswith].
  - rewrite orb_false_r, String.eqb_eq. split.
    + intros <-. now exists "".
    + intros [[|a p] Hp]; [now rewrite append_nil_l in Hp |].
      rewrite append_cons in Hp. discriminate.
  - rewrite orb_true_iff, String.eqb_eq, IH. split.
    + intros [<- | [p ->]]; [now exists "" | now exists (String c p)].
    + intros [[|a p] Hp].
      * left. now rewrite append_nil_l in Hp.
      * right. exists p. rewrite append_cons in Hp. congruence.
Qed.

Lemma startswith_spec (s p : string) :
  Str.startswith s p = true <-> exists r, s = p +:+ r.
Proof.
  revert s. induction p as [|a p IH]; intros s.
  - split; [intros _; now exists s | intros _; now destruct s].
  - destruct s as [|b s]; cbn [Str.startswith].
    + split; [discriminate | intros [r Hr]; rewrite append_cons in Hr; discriminate].
    + rewrite andb_true_iff, Ascii.eqb_eq, IH. split.
      * intros [-> [r ->]]. now exists r.
      * intros [r Hr]. rewrite append_cons in Hr. injection Hr as -> ->.
        split; [reflexivity | now exists r].
Qed.

(** ** The URL parser *)

Lemma plus_greedy_stop k excluded taken s :
  Str.stops_at excluded s = true ->
  Re.plus_greedy k excluded taken s = None.
Proof. destruct s as [|c s]; cbn; [reflexivity | now intros ->]. Qed.

(** A group takes the whole run of allowed characters when what follows
    the run matches the rest of the pattern. *)
Lemma plus_greedy_longest k excluded run : forall taken tail groups,
  run <> "" ->
  Str.free_of excluded run = true ->
  Str.stops_at excluded tail = true ->
  k tail = Some groups ->
  Re.plus_greedy k excluded taken (run +:+ tail)
  = Some ((taken +:+ run) :: groups).
Proof.
  induction run as [|c run IH]; intros taken tail groups Hne Hfree Hstop Hk;
    [congruence |].
  cbn in Hfree. apply andb_true_iff in Hfree as [Hc Hfree].
  apply negb_true_iff in Hc.
  rewrite append_cons. cbn [Re.plus_greedy]. rewrite Hc.
  destruct run as [|c' run'].
  - rewrite append_nil_l, (plus_greedy_stop _ _ _ _ Hstop), Hk. reflexivity.
  - rewrite (IH (taken +:+ String c "") tail groups); try easy.
    now rewrite append_assoc.
Qed.

Lemma search_here p s groups :
  Re.match_here p s = Some groups -> Re.search p s = Some groups.
Proof. intros H. destruct s; cbn [Re.search]; now rewrite H. Qed.

Lemma search_miss c0 p c s :
  Ascii.eqb c c0 = false ->
  Re.search (Re.Lit c0 :: p) (String c s) = Re.search (Re.Lit c0 :: p) s.
Proof. intros H. cbn [Re.search Re.match_here]. now rewrite H. Qed.

Lemma match_here_lit c p s :
  Re.match_here (Re.Lit c :: p) (String c s) = Re.match_here p s.
Proof. cbn [Re.match_here]. now rewrite Ascii.eqb_refl. Qed.

(** The part of both patterns after the host: [([^/]+)/([^/.]+)]. *)
Lemma match_owner_repo owner repo rest :
  owner <> "" -> Str.free_of ["/"]%char owner = true ->
  repo <> "" -> Str.free_of ["/"; "."]%char repo = true ->
  Str.stops_at ["/"; "."]%char rest = true ->
  Re.match_here
    [Re.Group_plus_not ["/"%char]; Re.Lit "/"%char;
     Re.Group_plus_not ["/"%char; "."%char]]
    (owner +:+ "/" +:+ repo +:+ rest)
  = Some [owner; repo].
Proof.
  intros Ho Hofree Hr Hrfree Hrest.
  cbn [Re.match_here].
  apply (plus_greedy_longest _ _ owner "" _ [repo]); try easy.
  rewrite append_cons, append_nil_l, Ascii.eqb_refl.
  now apply (plus_greedy_longest _ _ repo "" rest []).
Qed.

Lemma parse_github_url_https owner repo rest :
  owner <> "" -> Str.free_of ["/"]%char owner = true ->
  repo <> "" -> Str.free_of ["/"; "."]%char repo = true ->
  Str.stops_at ["/"; "."]%char rest = true ->
  parse_github_url ("https://github.com/" +:+ owner +:+ "/" +:+ repo +:+ rest)
  = Return (owner, repo).
Proof.
  intros Ho Hofree Hr Hrfree Hrest. unfold parse_github_url.
  rewrite !append_cons, append_nil_l.
  cbn [Str.startswith Ascii.eqb Bool.eqb andb].
  unfold pattern_https, Re.lits.
  cbn [list_ascii_of_string map app].
  rewrite !search_miss by reflexivity.
  rewrite (search_here _ _ [owner; repo]); [reflexivity |].
  rewrite !match_here_lit. now apply match_owner_repo.
Qed.

Lemma parse_github_url_ssh owner repo rest :
  owner <> "" -> Str.free_of ["/"]%char owner = true ->
  repo <> "" -> Str.free_of ["/"; "."]%char repo = true ->
  Str.stops_at ["/"; "."]%char rest = true ->
  parse_github_url ("git@github.com:" +:+ owner +:+ "/" +:+ repo +:+ rest)
  = Return (owner, repo).
Proof.
  intros Ho Hofree Hr Hrfree Hrest. unfold parse_github_url.
  rewrite !append_cons, append_nil_l.
  cbn [Str.startswith Ascii.eqb Bool.eqb andb].
  unfold pattern_ssh, Re.lits.
  cbn [list_ascii_of_string map app].
  rewrite (search_here _ _ [owner; repo]); [reflexivity |].
  rewrite !match_here_lit. now apply match_owner_repo.
Qed.

(** A repository name is cut at its first dot, whatever follows it. *)
Lemma parse_github_url_cuts_at_dot owner stem ext :
  owner <> "" -> Str.free_of ["/"]%char owner = true ->
  stem <> "" -> Str.free_of ["/"; "."]%char stem = true ->
  parse_github_url ("https://github.com/" +:+ owner +:+ "/" +:+ stem +:+ "." +:+ ext)
  = Return (owner, stem).
Proof.
  intros Ho Hofree Hs Hsfree. now apply parse_github_url_https.
Qed.

(** C1: the parser on repository names that hold a dot. The name
    [next.js] comes back as [next], with or without the [.git] ending,
    and the URL of a repository named [.github] is refused; the claim
    asks for [next.js] and [.github]. *)
Theorem parse_github_url_dotted_repo :
  parse_github_url "https://github.com/vercel/next.js"
  = Return ("vercel", "next")
  /\ parse_github_url "git@github.com:vercel/next.js.git"
     = Return ("vercel", "next")
  /\ parse_github_url "https://github.com/microsoft/.github"
     = Raise invalid_url.
Proof. repeat split; reflexivity. Qed.

Example parse_https_git :
  parse_github_url "https://github.com/foo/bar.git" = Return ("foo", "bar").
Proof. reflexivity. Qed.

Example parse_ssh_git :
  parse_github_url "git@github.com:foo/bar.git" = Return ("foo", "bar").
Proof. reflexivity. Qed.

Example parse_dotted :
  parse_github_url "https://github.com/vercel/next.js" = Return ("vercel", "next").
Proof. reflexivity. Qed.

Example parse_dot_github :
  parse_github_url "https://github.com/microsoft/.github" = Raise invalid_url.
Proof. reflexivity. Qed.

Example parse_no_repo :
  parse_github_url "https://github.com/foo" = Raise invalid_url.
Proof. reflexivity. Qed.

(** ** The relevance filter *)

Lemma is_relevant_spec (f : TreeEntry) :
  is_relevant f = true <-> ends_with_literal (name f).
Proof.
  unfold is_relevant, ends_with_literal. rewrite existsb_exists. split.
  - intros [suf [Hin Hs]]. apply endswith_spec in Hs as [p Hp]. now exists suf, p.
  - intros [suf [p [Hin Hp]]]. exists suf. split; [exact Hin |].
    apply endswith_spec. now exists p.
Qed.

Lemma append_loop_filter {A} (keep : A -> bool) (l acc : list A) :
  fold_left (fun acc x => if keep x then acc ++ [x] else acc) l acc
  = acc ++ List.filter keep l.
Proof.
  revert acc. induction l as [|x l IH]; intros acc; simpl.
  - now rewrite app_nil_r.
  - rewrite IH. destruct (keep x); [| reflexivity].
    now rewrite <- app_assoc.
Qed.

Lemma extract_relevant_files_filter (repo_data : list TreeEntry) :
  extract_relevant_files repo_data = List.filter is_relevant repo_data.
Proof. unfold extract_relevant_files. now rewrite append_loop_filter. Qed.

(** C3, as the claim states it, fails at
    [not_a_real_Dockerfile_just_kidding]: that name ends with
    [_just_kidding], not with [Dockerfile], and the entry is dropped. *)
Lemma extract_relevant_files_drops_just_kidding :
  ~ In (file_named "not_a_real_Dockerfile_just_kidding")
       (extract_relevant_files
          [file_named "not_a_real_Dockerfile_just_kidding"]).
Proof. vm_compute. intros []. Qed.

(** C3 (amended): [extract_relevant_files] keeps exactly the entries whose
    name ends with one of the seven literals, in the input order; it keeps
    [Dockerfile], [requirements.txt] and [app.py], and drops [image.png]
    and [not_a_real_Dockerfile_just_kidding]. *)
Theorem extract_relevant_files_suffix_filter (repo_data : list TreeEntry) :
  extract_relevant_files repo_data = List.filter is_relevant repo_data
  /\ sublist (extract_relevant_files repo_data) repo_data
  /\ (forall f, In f (extract_relevant_files repo_data)
                <-> In f repo_data /\ ends_with_literal (name f))
  /\ extract_relevant_files
       [file_named "Dockerfile"; file_named "image.png";
        file_named "not_a_real_Dockerfile_just_kidding";
        file_named "requirements.txt"; file_named "app.py"]
     = [file_named "Dockerfile"; file_named "requirements.txt";
        file_named "app.py"].
Proof.
  rewrite extract_relevant_files_filter.
  split; [reflexivity |]. split; [| split; [| reflexivity]].
  - induction repo_data as [|x l IH]; simpl; [constructor |].
    destruct (is_relevant x); now constructor.
  - intros f. rewrite filter_In, is_relevant_spec. reflexivity.
Qed.

Example filter_examples :
  extract_relevant_files
    [file_named "Dockerfile"; file_named "image.png";
     file_named "not_a_real_Dockerfile_just_kidding";
     file_named "requirements.txt"; file_named "app.py";
     file_named "mypackage.json.bak"]
  = [file_named "Dockerfile"; file_named "requirements.txt"; file_named "app.py"].
Proof. reflexivity. Qed.

(** ** The dependency extractor *)

Lemma is_blank_cons c s :
  Stated.is_blank (String c s) = Str.isspace c && Stated.is_blank s.
Proof. reflexivity. Qed.

Lemma lstrip_blank (s : string) :
  Stated.is_blank (Str.lstrip s) = Stated.is_blank s.
Proof.
  induction s as [|c s IH]; [reflexivity |].
  cbn [Str.lstrip]. destruct (Str.isspace c) eqn:Hc.
  - now rewrite IH, is_blank_cons, Hc.
  - reflexivity.
Qed.

Lemma rstrip_empty (s : string) :
  Str.rstrip s = "" <-> Stated.is_blank s = true.
Proof.
  induction s as [|c s IH]; [easy |].
  rewrite is_blank_cons, andb_true_iff, <- IH. cbn [Str.rstrip].
  destruct (Str.rstrip s); destruct (Str.isspace c); split;
    try easy; intros [? ?]; easy.
Qed.

Lemma strip_blank (line : string) :
  String.eqb (Str.strip line) "" = Stated.is_blank line.
Proof.
  unfold Str.strip. rewrite <- lstrip_blank.
  destruct (Stated.is_blank (Str.lstrip line)) eqn:Hb.
  - apply rstrip_empty in Hb. now rewrite Hb.
  - apply String.eqb_neq. intros H. apply rstrip_empty in H. congruence.
Qed.

Lemma cons_head_nonempty a l : Str.cons_head a l <> [].
Proof. now destruct l. Qed.

Lemma split2_cons2 c1 c2 a b s :
  Str.split2 c1 c2 (String a (String b s))
  = if Ascii.eqb a c1 && Ascii.eqb b c2
    then "" :: Str.split2 c1 c2 s
    else Str.cons_head a (Str.split2 c1 c2 (String b s)).
Proof. reflexivity. Qed.

Lemma find2_cons2 c1 c2 a b s :
  Stated.find2 c1 c2 (String a (String b s))
  = if Ascii.eqb a c1 && Ascii.eqb b c2
    then Some ("", s)
    else match Stated.find2 c1 c2 (String b s) with
         | Some (x, y) => Some (String a x, y)
         | None => None
         end.
Proof. reflexivity. Qed.

Lemma split2_nonempty c1 c2 s : Str.split2 c1 c2 s <> [].
Proof.
  destruct s as [|a [|b s]]; [easy | easy |].
  rewrite split2_cons2.
  destruct (Ascii.eqb a c1 && Ascii.eqb b c2); [easy |].
  apply cons_head_nonempty.
Qed.

Lemma split2_find2 c1 c2 s :
  Str.split2 c1 c2 s =
  match Stated.find2 c1 c2 s with
  | Some (x, y) => x :: Str.split2 c1 c2 y
  | None => [s]
  end.
Proof.
  induction s as [|a s IH]; [reflexivity |].
  destruct s as [|b s]; [reflexivity |].
  rewrite split2_cons2, find2_cons2.
  destruct (Ascii.eqb a c1 && Ascii.eqb b c2); [reflexivity |].
  rewrite IH. now destruct (Stated.find2 c1 c2 (String b s)) as [[x y]|].
Qed.

Lemma split2_exact_pin (line : string) :
  match Stated.exact_pin line with
  | Some (n, v) => Str.split2 "=" "=" line = [n; v]
  | None => forall n v, Str.split2 "=" "=" line <> [n; v]
  end.
Proof.
  unfold Stated.exact_pin. rewrite (split2_find2 _ _ line).
  destruct (Stated.find2 "=" "=" line) as [[n v]|]; [| easy].
  rewrite (split2_find2 _ _ v).
  destruct (Stated.find2 "=" "=" v) as [[x y]|]; [| reflexivity].
  intros n' v' H. injection H as _ H.
  pose proof (split2_nonempty "=" "=" y). destruct (Str.split2 "=" "=" y); easy.
Qed.

Lemma requirements_line_stated deps line :
  requirements_line deps line = deps ++ Stated.requirement line.
Proof.
  unfold requirements_line, Stated.requirement.
  rewrite strip_blank, <- negb_orb.
  destruct (Stated.is_blank line || Str.startswith line "#"); cbn [negb].
  { now rewrite app_nil_r. }
  pose proof (split2_exact_pin line) as H.
  destruct (Stated.exact_pin line) as [[n v]|].
  - now rewrite H.
  - destruct (Str.split2 "=" "=" line) as [|a [|b [|c l]]];
      rewrite ?app_nil_r; try reflexivity.
    now destruct (H a b).
Qed.

Lemma requirements_loop_stated lines deps :
  fold_left requirements_line lines deps
  = deps ++ flat_map Stated.requirement lines.
Proof.
  revert deps. induction lines as [|l ls IH]; intros deps; cbn [fold_left flat_map].
  - now rewrite app_nil_r.
  - now rewrite IH, requirements_line_stated, <- app_assoc.
Qed.

Lemma remove_caret_tilde (v : string) :
  Str.remove_char "~" (Str.remove_char "^" v)
  = Stated.without_chars ["^"; "~"]%char v.
Proof.
  induction v as [|c v IH]; [reflexivity |].
  cbn [Str.remove_char Stated.without_chars Str.in_chars existsb].
  destruct (Ascii.eqb c "^") eqn:H1; cbn [orb]; [exact IH |].
  cbn [Str.remove_char]. rewrite orb_false_r.
  destruct (Ascii.eqb c "~"); [exact IH | now rewrite IH].
Qed.

Section ExtractorFacts.

Variable json_loads : string -> outcome json.

Lemma manifest_entry_raises entry e :
  Stated.manifest_entry entry = Raise e -> catches JSONDecodeError e = false.
Proof. destruct entry as [n []]; intros H; inversion H; reflexivity. Qed.

Lemma manifest_entries_raises items e :
  Stated.manifest_entries items = Raise e -> catches JSONDecodeError e = false.
Proof.
  induction items as [|entry rest IH]; [discriminate |].
  cbn [Stated.manifest_entries].
  destruct (Stated.manifest_entry entry) eqn:He; cbn.
  - destruct (Stated.manifest_entries rest); cbn; [discriminate |].
    intros H; inversion H; subst. now apply IH.
  - intros H; inversion H; subst. now apply manifest_entry_raises in He.
Qed.

(** The loop, from any state of [dependencies]. *)
Lemma package_json_loop_stated items deps :
  match Stated.manifest_entries items with
  | Return ds => package_json_loop items deps = (deps ++ ds, None)
  | Raise e => snd (package_json_loop items deps) = Some e
  end.
Proof.
  revert deps. induction items as [|[n v] rest IH]; intros deps.
  - cbn. now rewrite app_nil_r.
  - cbn [Stated.manifest_entries package_json_loop].
    destruct v; cbn; try reflexivity.
    rewrite remove_caret_tilde.
    specialize (IH (deps ++ [Stated.frontend n (Stated.without_chars ["^"; "~"]%char s)])).
    destruct (Stated.manifest_entries rest); cbn.
    + unfold Stated.frontend in *. rewrite IH. now rewrite <- app_assoc.
    + exact IH.
Qed.

Lemma contains_key_raises k v e :
  Py.contains_key k v = Raise e -> catches JSONDecodeError e = false.
Proof. destruct v; intros H; inversion H; reflexivity. Qed.

Lemma getitem_raises v k e :
  Py.getitem v k = Raise e -> catches JSONDecodeError e = false.
Proof.
  destruct v; cbn; try (intros H; inversion H; reflexivity).
  destruct (Py.lookup k items); intros H; inversion H; reflexivity.
Qed.

Lemma items_raises v e :
  Py.items v = Raise e -> catches JSONDecodeError e = false.
Proof. destruct v; intros H; inversion H; reflexivity. Qed.

Lemma package_json_part_stated text deps :
  match Stated.manifest json_loads (Some text) with
  | Return ds => package_json_part json_loads text deps = (deps ++ ds, None)
  | Raise e => snd (package_json_part json_loads text deps) = Some e
  end.
Proof.
  unfold Stated.manifest, package_json_part, package_json_body.
  destruct (json_loads text) as [package_json | e].
  2: { destruct (catches JSONDecodeError e); cbn [snd];
       [now rewrite app_nil_r | reflexivity]. }
  destruct (Py.contains_key "dependencies" package_json) as [[|] | e] eqn:Hk;
    cbn [mbind outcome_bind].
  - destruct (Py.getitem package_json "dependencies") as [d | e] eqn:Hg;
      cbn [mbind outcome_bind].
    + destruct (Py.items d) as [items | e] eqn:Hitems; cbn [mbind outcome_bind].
      * pose proof (package_json_loop_stated items deps) as H.
        destruct (Stated.manifest_entries items) as [ds | e] eqn:Hm.
        -- now rewrite H.
        -- destruct (package_json_loop items deps) as [d' [e' |]];
             cbn [snd] in H; [| discriminate].
           injection H as ->.
           now rewrite (manifest_entries_raises _ _ Hm).
      * now rewrite (items_raises _ _ Hitems).
    + now rewrite (getitem_raises _ _ _ Hg).
  - now rewrite app_nil_r.
  - now rewrite (contains_key_raises _ _ _ Hk).
Qed.

(** [extract_dependencies] computes the stated lists, one after the
    other. *)
Lemma extract_dependencies_stated (files_data : gmap string string) :
  extract_dependencies json_loads files_data
  = (pkg ← Stated.manifest json_loads (files_data !! "package.json");
     Return {| dependencies :=
                 pkg ++ Stated.requirements (files_data !! "requirements.txt") |}).
Proof.
  unfold extract_dependencies.
  destruct (files_data !! "package.json") as [text |].
  - pose proof (package_json_part_stated text []) as H.
    destruct (Stated.manifest json_loads (Some text)) as [ds | e];
      cbn [mbind outcome_bind].
    + rewrite H. cbn [app].
      destruct (files_data !! "requirements.txt") as [req |]; cbn [Stated.requirements].
      * now rewrite requirements_loop_stated.
      * now rewrite app_nil_r.
    + destruct (package_json_part json_loads text []) as [d' [e' |]];
        cbn [snd] in H; [| discriminate].
      now injection H as ->.
  - cbn [Stated.manifest mbind outcome_bind app].
    destruct (files_data !! "requirements.txt") as [req |]; cbn [Stated.requirements].
    + now rewrite requirements_loop_stated.
    + reflexivity.
Qed.

End ExtractorFacts.

Lemma manifest_entries_strings (entries : list (string * string)) :
  Stated.manifest_entries (Stated.string_items entries)
  = Return (map (fun '(n, v) =>
                   Stated.frontend n (Stated.without_chars ["^"; "~"]%char v))
                entries).
Proof.
  induction entries as [|[n v] rest IH]; [reflexivity |].
  cbn [Stated.string_items map Stated.manifest_entries Stated.manifest_entry].
  fold (Stated.string_items rest). rewrite IH. reflexivity.
Qed.

(** C4, as the claim states it, fails on a version range with a second
    [^]: the code removes every [^] and [~], not the leading ones only. *)
Lemma extract_dependencies_removes_inner_caret :
  extract_dependencies JsonBasic.json_loads caret_manifest
  = Return {| dependencies := [Stated.frontend "eslint" "7.0.0 || 8.0.0"] |}
  /\ Stated.strip_leading ["^"; "~"]%char "^7.0.0 || ^8.0.0" = "7.0.0 || ^8.0.0"
  /\ extract_dependencies JsonBasic.json_loads caret_manifest
     <> Return {| dependencies :=
          [Stated.frontend "eslint"
             (Stated.strip_leading ["^"; "~"]%char "^7.0.0 || ^8.0.0")] |}.
Proof.
  split; [vm_compute; reflexivity |]. split; [reflexivity |].
  vm_compute. discriminate.
Qed.

(** C4 (amended): when [files_data] has a package.json that parses to an
    object whose [dependencies] is an object of strings, the extractor
    emits, in declaration order, one entry per dependency with the name,
    the version without any [^] or [~], and the frontend description
    (before the requirements.txt entries); when the text is not JSON the
    manifest contributes no entry and nothing is raised. *)
Theorem extract_dependencies_package_json
    (json_loads : string -> outcome json)
    (files_data : gmap string string) (text : string) :
  files_data !! "package.json" = Some text ->
  (forall top entries,
      json_loads text = Return (JObject top) ->
      Py.lookup "dependencies" top = Some (JObject (Stated.string_items entries)) ->
      extract_dependencies json_loads files_data
      = Return {| dependencies :=
          map (fun '(n, v) =>
                 Stated.frontend n (Stated.without_chars ["^"; "~"]%char v))
              entries
          ++ Stated.requirements (files_data !! "requirements.txt") |})
  /\ (forall e,
        json_loads text = Raise e ->
        exn_cls e = JSONDecodeError ->
        extract_dependencies json_loads files_data
        = Return {| dependencies :=
                      Stated.requirements (files_data !! "requirements.txt") |}).
Proof.
  intros Hfile. split.
  - intros top entries Hload Hdeps.
    rewrite extract_dependencies_stated, Hfile.
    unfold Stated.manifest. rewrite Hload.
    cbn [Py.contains_key Py.getitem mbind outcome_bind]. rewrite Hdeps.
    cbn [Py.items mbind outcome_bind].
    now rewrite manifest_entries_strings.
  - intros e Hload Hcls.
    rewrite extract_dependencies_stated, Hfile.
    unfold Stated.manifest. rewrite Hload.
    unfold catches. now rewrite Hcls.
Qed.

Lemma extract_dependencies_package_json_witness :
  extract_dependencies JsonBasic.json_loads react_manifest_data
  = Return {| dependencies := [Stated.frontend "react" "18.2.0"] |}
  /\ extract_dependencies JsonBasic.json_loads broken_manifest_data
     = Return {| dependencies := [] |}.
Proof.
  split.
  - apply (proj1 (extract_dependencies_package_json JsonBasic.json_loads
                    react_manifest_data
                    (JsonBasic.dq "{'dependencies': {'react': '^18.2.0'}}")
                    eq_refl)
             [("dependencies", JObject [("react", JString "^18.2.0")])]
             [("react", "^18.2.0")]); reflexivity.
  - apply (proj2 (extract_dependencies_package_json JsonBasic.json_loads
                    broken_manifest_data "{'dependencies': " eq_refl)
             JsonBasic.decode_error); reflexivity.
Defined.



(** C6: the list [extract_dependencies] returns is the package.json
    entries, in declaration order, followed by the requirements.txt
    entries, in line order; it raises only what the manifest raises. *)
Theorem extract_dependencies_concat
    (json_loads : string -> outcome json) (files_data : gmap string string) :
  match Stated.manifest json_loads (files_data !! "package.json") with
  | Return pkg =>
      extract_dependencies json_loads files_data
      = Return {| dependencies :=
                    pkg ++ Stated.requirements (files_data !! "requirements.txt") |}
  | Raise e => extract_dependencies json_loads files_data = Raise e
  end.
Proof.
  rewrite extract_dependencies_stated.
  now destruct (Stated.manifest json_loads (files_data !! "package.json")).
Qed.

Example react_manifest :
  extract_dependencies JsonBasic.json_loads
    {[ "package.json" :=
         JsonBasic.dq "{'name': 'app', 'dependencies': {'react': '^18.2.0', 'lodash': '~4.17.21'}}" ]}
  = Return {| dependencies :=
      [ {| Dependency.name := "react"; Dependency.version := "18.2.0";
           Dependency.description := frontend_description |};
        {| Dependency.name := "lodash"; Dependency.version := "4.17.21";
           Dependency.description := frontend_description |} ] |}.
Proof. vm_compute. reflexivity. Qed.

Example requirement_lines :
  map Stated.requirement
      ["flask==2.0.1"; " requests == 2.31.0 "; "numpy"; "# comment";
       "pkg>=1.0"; "a==b==c"; "   "; "  # indented==1"]
  = [[Stated.backend "flask" "2.0.1"]; [Stated.backend "requests" "2.31.0"];
     []; []; []; []; []; [Stated.backend "# indented" "1"]].
Proof. reflexivity. Qed.

(** ** The scanner *)

Section ScanFacts.

Variable headers : list (string * string).
Variable requests_get : string -> list (string * string) -> outcome Http.Response.
Variables owner repo : string.

Local Abbreviation listing := (Tree.listing headers requests_get owner repo).
Local Abbreviation reachable := (Tree.reachable headers requests_get owner repo).
Local Abbreviation depth_le := (Tree.depth_le headers requests_get owner repo).
Local Abbreviation flatten := (Tree.flatten headers requests_get owner repo).
Local Abbreviation listing_fails := (Tree.listing_fails headers requests_get owner repo).
Local Abbreviation scan n p :=
  (scan_directory headers requests_get n owner repo p).

Lemma get_repo_contents_listing p :
  returns (requests_get (contents_url owner repo p) headers) ->
  get_repo_contents headers requests_get owner repo p = Return (listing p).
Proof.
  intros [r Hr]. unfold get_repo_contents, Tree.listing. rewrite Hr.
  cbn [mbind outcome_bind]. now destruct (Http.status_code r =? 200).
Qed.

Lemma scan_items_flat_map scan sub items acc :
  (forall d, In d items -> type d = "dir" ->
             scan (path d) = Some (Return (sub (path d)))) ->
  scan_items scan items acc
  = Some (Return (acc ++ flat_map (Tree.files_of sub) items)).
Proof.
  revert acc. induction items as [|item rest IH]; intros acc Hsub.
  - cbn. now rewrite app_nil_r.
  - cbn [scan_items flat_map]. unfold Tree.files_of at 1.
    destruct (String.eqb (type item) "file") eqn:Hfile.
    + rewrite IH by (intros; apply Hsub; [now right | assumption]).
      now rewrite <- app_assoc.
    + destruct (String.eqb (type item) "dir") eqn:Hdir.
      * rewrite (Hsub item) by (first [now left | now apply String.eqb_eq]).
        rewrite IH by (intros; apply Hsub; [now right | assumption]).
        destruct (sub (path item)); [reflexivity |].
        now rewrite <- app_assoc.
      * rewrite IH by (intros; apply Hsub; [now right | assumption]).
        reflexivity.
Qed.

Lemma flatten_S n p : flatten (S n) p = flat_map (Tree.files_of (flatten n)) (listing p).
Proof. reflexivity. Qed.

Lemma scan_directory_flatten n p :
  Tree.answered headers requests_get owner repo -> depth_le n p ->
  scan n p = Some (Return (flatten n p)).
Proof.
  intros Hans Hdepth. induction Hdepth as [n p Hsub IH].
  cbn [scan_directory]. rewrite (get_repo_contents_listing p (Hans p)).
  rewrite flatten_S.
  destruct (listing p) as [|item rest] eqn:Hl; [reflexivity |].
  now rewrite (scan_items_flat_map _ (flatten n)).
Qed.

Lemma flatten_files n p : Forall (fun f => type f = "file") (flatten n p).
Proof.
  revert p. induction n as [|n IH]; intros p; [constructor |].
  rewrite flatten_S. apply List.Forall_forall. intros f Hf.
  apply in_flat_map in Hf as [item [_ Hf]]. unfold Tree.files_of in Hf.
  destruct (String.eqb (type item) "file") eqn:Hfile.
  - destruct Hf as [<- | []]. now apply String.eqb_eq.
  - destruct (String.eqb (type item) "dir"); [| destruct Hf].
    specialize (IH (path item)). rewrite List.Forall_forall in IH. now apply IH.
Qed.

Lemma flatten_reachable n p f : In f (flatten n p) -> reachable p f.
Proof.
  revert p. induction n as [|n IH]; intros p; [intros [] |].
  rewrite flatten_S. intros Hf.
  apply in_flat_map in Hf as [item [Hitem Hf]]. unfold Tree.files_of in Hf.
  destruct (String.eqb (type item) "file") eqn:Hfile.
  - destruct Hf as [<- | []]. apply Tree.reachable_file; [assumption |].
    now apply String.eqb_eq.
  - destruct (String.eqb (type item) "dir") eqn:Hdir; [| destruct Hf].
    apply (Tree.reachable_dir _ _ _ _ p item); [assumption | | now apply IH].
    now apply String.eqb_eq.
Qed.

Lemma reachable_flatten p f :
  reachable p f -> forall n, depth_le n p -> In f (flatten n p).
Proof.
  induction 1 as [p f Hin Hfile | p d f Hin Hdir _ IH]; intros n Hdepth;
    destruct Hdepth as [n p Hsub]; rewrite flatten_S; apply in_flat_map.
  - exists f. split; [assumption |]. unfold Tree.files_of.
    apply String.eqb_eq in Hfile. rewrite Hfile. now left.
  - exists d. split; [assumption |]. unfold Tree.files_of.
    rewrite Hdir. cbn. now apply IH, Hsub.
Qed.

Lemma failed_listing_empty q : listing_fails q -> listing q = [].
Proof.
  intros [r [Hr Hs]]. unfold Tree.listing. rewrite Hr.
  apply Nat.eqb_neq in Hs. now rewrite Hs.
Qed.

Lemma failed_listing_dead_end q k :
  listing_fails q -> scan (S k) q = Some (Return []).
Proof.
  intros Hq. cbn [scan_directory].
  rewrite get_repo_contents_listing by (destruct Hq as [r [Hr _]]; now exists r).
  now rewrite failed_listing_empty.
Qed.

End ScanFacts.

(** C7: when the listing requests are answered and the tree has a finite
    depth, the scan returns; its result is the depth-first sequence of
    the files of the tree in which a listing that fails with a
    non-success status counts as empty: it holds files only, namely the
    files reachable through the listings that succeed, and the scan of a
    path whose listing fails is empty. *)
Theorem scan_repo_failed_listing_dead_end
    (headers : list (string * string))
    (requests_get : string -> list (string * string) -> outcome Http.Response)
    (owner repo : string) (n : nat) :
  Tree.answered headers requests_get owner repo ->
  Tree.depth_le headers requests_get owner repo n "" ->
  exists files,
    scan_repo headers requests_get n owner repo = Some (Return files)
    /\ files = Tree.flatten headers requests_get owner repo n ""
    /\ Forall (fun f => type f = "file") files
    /\ (forall f, In f files
                  <-> Tree.reachable headers requests_get owner repo "" f)
    /\ (forall q k,
          Tree.listing_fails headers requests_get owner repo q ->
          Tree.listing headers requests_get owner repo q = []
          /\ scan_directory headers requests_get (S k) owner repo q
             = Some (Return [])).
Proof.
  intros Hans Hdepth.
  exists (Tree.flatten headers requests_get owner repo n "").
  split; [now apply scan_directory_flatten |].
  split; [reflexivity |].
  split; [apply flatten_files |].
  split.
  - intros f. split; [apply flatten_reachable |].
    intros Hr. now apply reachable_flatten.
  - intros q k Hq. split; [now apply failed_listing_empty |].
    now apply failed_listing_dead_end.
Qed.

Lemma demo_answered : Tree.answered [] Demo.requests_get "octo" "demo".
Proof.
  intros p. unfold Demo.requests_get.
  destruct (String.eqb _ _); [eexists; reflexivity |].
  destruct (String.eqb _ _); eexists; reflexivity.
Qed.

Lemma demo_depth : Tree.depth_le [] Demo.requests_get "octo" "demo" 2 "".
Proof.
  constructor. intros d Hin Hdir. vm_compute in Hin.
  destruct Hin as [<- | [<- | [<- | []]]]; [discriminate Hdir | |];
    constructor; intros d' Hin' Hdir'; vm_compute in Hin'.
  - destruct Hin'.
  - destruct Hin' as [<- | []]. discriminate Hdir'.
Qed.

Lemma demo_broken_fails :
  Tree.listing_fails [] Demo.requests_get "octo" "demo" "broken".
Proof. eexists. split; [reflexivity |]. cbn. lia. Qed.

Lemma scan_repo_failed_listing_dead_end_witness :
  scan_repo [] Demo.requests_get 2 "octo" "demo"
  = Some (Return [Demo.readme; Demo.app_py])
  /\ scan_directory [] Demo.requests_get 1 "octo" "demo" "broken"
     = Some (Return []).
Proof.
  destruct (scan_repo_failed_listing_dead_end [] Demo.requests_get
              "octo" "demo" 2 demo_answered demo_depth)
    as [files [Hscan [Hfiles [_ [_ Hdead]]]]].
  split.
  - rewrite Hscan, Hfiles. reflexivity.
  - exact (proj2 (Hdead "broken" 0 demo_broken_fails)).
Defined.

(** ** The summarizer *)

Section SummarizerFacts.

Variable json_loads : string -> outcome json.
Variable json_dumps : json -> string.
Variable json_dumps_files : gmap string string -> string.
Variable model : Type.
Variable GenerativeModel : string -> outcome model.
Variable generate_content : model -> string -> outcome Genai.Response.

Local Abbreviation summarize files_data fs :=
  (summarize_repo json_loads json_dumps json_dumps_files model
     GenerativeModel generate_content files_data fs).
Local Abbreviation body files_data fs :=
  (summarize_repo_body json_loads json_dumps json_dumps_files model
     GenerativeModel generate_content files_data fs).
Local Abbreviation the_prompt files_data :=
  (prompt json_dumps_files files_data).

Lemma summarize_repo_returns files_data fs :
  returns (snd (summarize files_data fs)).
Proof.
  unfold summarize_repo.
  destruct (body files_data fs) as [fs' [s | e]]; eexists; reflexivity.
Qed.

(** The file system changes on one path only: the model answers with a
    truthy response whose text is read, and the file is written. *)
Lemma summarize_repo_writes files_data fs :
  fst (summarize files_data fs) <> fs ->
  exists m deps r t,
    GenerativeModel model_name = Return m
    /\ extract_dependencies json_loads files_data = Return deps
    /\ generate_content m (the_prompt files_data) = Return r
    /\ Genai.truthy r = true
    /\ Genai.text r = Return t
    /\ output_file ∉ unwritable fs.
Proof.
  unfold summarize_repo, summarize_repo_body.
  destruct (GenerativeModel model_name) as [m | e] eqn:Hm; [| now intros []].
  destruct (extract_dependencies json_loads files_data) as [deps | e] eqn:Hd;
    [| now intros []].
  destruct (generate_content m (the_prompt files_data)) as [r | e] eqn:Hg;
    [| now intros []].
  destruct (Genai.truthy r) eqn:Ht; [| now intros []].
  destruct (Genai.text r) as [t | e] eqn:Htext; [| now intros []].
  unfold write_file. destruct (decide (output_file ∈ unwritable fs));
    [now intros [] |].
  intros _. now exists m, deps, r, t.
Qed.



End SummarizerFacts.

(** C8: when the call of the language model raises, [summarize_repo]
    returns the text [Error generating summary: ] followed by [str(e)] and
    leaves the file system as it was; and whatever the services do,
    [summarize_repo] returns a string: it raises nothing. *)
Theorem summarize_repo_catches_llm_exception
    (json_loads : string -> outcome json) (json_dumps : json -> string)
    (json_dumps_files : gmap string string -> string) (model : Type)
    (GenerativeModel : string -> outcome model)
    (generate_content : model -> string -> outcome Genai.Response)
    (files_data : gmap string string) (fs : FileSystem)
    (m : model) (deps : deps_json) (e : exn) :
  GenerativeModel model_name = Return m ->
  extract_dependencies json_loads files_data = Return deps ->
  generate_content m (prompt json_dumps_files files_data) = Raise e ->
  summarize_repo json_loads json_dumps json_dumps_files model
    GenerativeModel generate_content files_data fs
  = (fs, Return ("Error generating summary: " +:+ exn_str e))
  /\ (forall files_data' fs',
        returns (snd (summarize_repo json_loads json_dumps json_dumps_files
                        model GenerativeModel generate_content
                        files_data' fs'))).
Proof.
  intros Hm Hd Hg. split.
  - unfold summarize_repo, summarize_repo_body. now rewrite Hm, Hd, Hg.
  - intros files_data' fs'. apply summarize_repo_returns.
Qed.

Lemma summarize_repo_catches_llm_exception_witness :
  summarize_repo JsonBasic.json_loads JsonBasic.json_dumps
    JsonBasic.json_dumps_files unit Demo.GenerativeModel Demo.llm_out_of_quota
    flask_requirements Demo.empty_fs
  = (Demo.empty_fs,
     Return "Error generating summary: 429 Resource has been exhausted").
Proof.
  exact (proj1 (summarize_repo_catches_llm_exception
                  JsonBasic.json_loads JsonBasic.json_dumps
                  JsonBasic.json_dumps_files unit Demo.GenerativeModel
                  Demo.llm_out_of_quota flask_requirements Demo.empty_fs tt
                  {| dependencies := [Stated.backend "flask" "2.0.1"] |}
                  Demo.quota_exceeded eq_refl eq_refl eq_refl)).
Defined.



(** C10: when the call of the language model returns a falsy response,
    [summarize_repo] returns the empty string and the file system is as
    it was; and a run changes the file system only when the model
    returned a truthy response. *)
Theorem summarize_repo_falsy_response
    (json_loads : string -> outcome json) (json_dumps : json -> string)
    (json_dumps_files : gmap string string -> string) (model : Type)
    (GenerativeModel : string -> outcome model)
    (generate_content : model -> string -> outcome Genai.Response)
    (files_data : gmap string string) (fs : FileSystem)
    (m : model) (deps : deps_json) (r : Genai.Response) :
  GenerativeModel model_name = Return m ->
  extract_dependencies json_loads files_data = Return deps ->
  generate_content m (prompt json_dumps_files files_data) = Return r ->
  Genai.truthy r = false ->
  summarize_repo json_loads json_dumps json_dumps_files model
    GenerativeModel generate_content files_data fs
  = (fs, Return "")
  /\ (forall files_data' fs',
        fst (summarize_repo json_loads json_dumps json_dumps_files model
               GenerativeModel generate_content files_data' fs') <> fs' ->
        exists m' r',
          GenerativeModel model_name = Return m'
          /\ generate_content m' (prompt json_dumps_files files_data')
             = Return r'
          /\ Genai.truthy r' = true).
Proof.
  intros Hm Hd Hg Ht. split.
  - unfold summarize_repo, summarize_repo_body. now rewrite Hm, Hd, Hg, Ht.
  - intros files_data' fs' Hfs. apply summarize_repo_writes in Hfs
      as [m' [deps' [r' [t [Hm' [_ [Hg' [Ht' _]]]]]]]].
    now exists m', r'.
Qed.

Lemma summarize_repo_falsy_response_witness :
  summarize_repo JsonBasic.json_loads JsonBasic.json_dumps
    JsonBasic.json_dumps_files unit Demo.GenerativeModel Demo.llm_falsy
    flask_requirements Demo.empty_fs
  = (Demo.empty_fs, Return "").
Proof.
  exact (proj1 (summarize_repo_falsy_response
                  JsonBasic.json_loads JsonBasic.json_dumps
                  JsonBasic.json_dumps_files unit Demo.GenerativeModel
                  Demo.llm_falsy flask_requirements Demo.empty_fs tt
                  {| dependencies := [Stated.backend "flask" "2.0.1"] |}
                  {| Genai.truthy := false; Genai.text := Return "" |}
                  eq_refl eq_refl eq_refl eq_refl)).
Defined.


(** ** The pipeline *)

Section PipelineFacts.

Variable requests_get : string -> list (string * string) -> outcome Http.Response.

(** Every request is answered with a response. *)
Hypothesis all_answered : forall url h, returns (requests_get url h).

Lemma get_file_content_returns url :
  returns (get_file_content requests_get url).
Proof.
  unfold get_file_content. destruct (all_answered url []) as [r ->].
  cbn [mbind outcome_bind].
  destruct (Http.status_code r =? 200); eexists; reflexivity.
Qed.

Lemma fetch_contents_returns files acc :
  returns (fetch_contents requests_get files acc).
Proof.
  revert acc. induction files as [|file rest IH]; intros acc.
  - eexists; reflexivity.
  - cbn [fetch_contents].
    destruct (get_file_content_returns (download_url file)) as [c ->].
    apply IH.
Qed.

End PipelineFacts.

(** C2, as the claim states it, fails when the HTTP client raises: the
    URL is valid, the first listing request cannot reach the network, and
    the run is aborted with [None]. *)
Lemma analyze_github_repo_aborted_by_network :
  parse_github_url "https://github.com/foo/bar" = Return ("foo", "bar")
  /\ analyze_github_repo JsonBasic.json_loads JsonBasic.json_dumps
       JsonBasic.json_dumps_files [] Demo.unreachable unit
       Demo.GenerativeModel Demo.llm_answering 1
       "https://github.com/foo/bar" Demo.empty_fs
     = Some (Demo.empty_fs, None).
Proof. split; reflexivity. Qed.

(** C2 (amended): a URL that matches neither pattern makes
    [parse_github_url] raise [ValueError("Invalid GitHub URL")], and that
    error is fatal: the run is aborted with [None] and nothing is
    written. It is not the only fatal error: when the request for the
    root listing raises, the run of a valid URL is aborted in the same
    way. *)
Theorem parse_github_url_invalid (url : string) :
  Re.search pattern_https url = None ->
  Re.search pattern_ssh url = None ->
  parse_github_url url = Raise invalid_url
  /\ forall (json_loads : string -> outcome json) (json_dumps : json -> string)
       (json_dumps_files : gmap string string -> string)
       (headers : list (string * string))
       (requests_get : string -> list (string * string) -> outcome Http.Response)
       (model : Type) (GenerativeModel : string -> outcome model)
       (generate_content : model -> string -> outcome Genai.Response)
       (fuel : nat) (fs : FileSystem),
      analyze_github_repo json_loads json_dumps json_dumps_files headers
        requests_get model GenerativeModel generate_content fuel url fs
      = Some (fs, None)
      /\ (forall url' owner repo e,
            parse_github_url url' = Return (owner, repo) ->
            requests_get (contents_url owner repo "") headers = Raise e ->
            analyze_github_repo json_loads json_dumps json_dumps_files headers
              requests_get model GenerativeModel generate_content
              (S fuel) url' fs
            = Some (fs, None)).
Proof.
  intros Hhttps Hssh.
  assert (Hparse : parse_github_url url = Raise invalid_url).
  { unfold parse_github_url.
    destruct (Str.startswith url "git@"); [now rewrite Hssh | now rewrite Hhttps]. }
  split; [exact Hparse |].
  intros. split.
  - unfold analyze_github_repo. now rewrite Hparse.
  - intros url' owner repo e Hvalid Hroot.
    unfold analyze_github_repo, scan_repo. rewrite Hvalid.
    cbn [scan_directory]. unfold get_repo_contents. now rewrite Hroot.
Qed.

Lemma parse_github_url_invalid_witness :
  parse_github_url "https://gitlab.com/foo/bar" = Raise invalid_url
  /\ analyze_github_repo JsonBasic.json_loads JsonBasic.json_dumps
       JsonBasic.json_dumps_files [] Demo.unreachable unit
       Demo.GenerativeModel Demo.llm_answering 3
       "https://gitlab.com/foo/bar" Demo.empty_fs
     = Some (Demo.empty_fs, None)
  /\ analyze_github_repo JsonBasic.json_loads JsonBasic.json_dumps
       JsonBasic.json_dumps_files [] Demo.unreachable unit
       Demo.GenerativeModel Demo.llm_answering 4
       "https://github.com/foo/bar" Demo.empty_fs
     = Some (Demo.empty_fs, None).
Proof.
  destruct (parse_github_url_invalid "https://gitlab.com/foo/bar"
              eq_refl eq_refl) as [Hparse Hrun].
  split; [exact Hparse |].
  destruct (Hrun JsonBasic.json_loads JsonBasic.json_dumps
              JsonBasic.json_dumps_files [] Demo.unreachable unit
              Demo.GenerativeModel Demo.llm_answering 3 Demo.empty_fs)
    as [Hinvalid Hroot].
  split; [exact Hinvalid |].
  exact (Hroot "https://github.com/foo/bar" "foo" "bar"
           (Exn ConnectionError "Failed to establish a new connection")
           eq_refl eq_refl).
Defined.

(** ** More on the URL parser *)

(** What a group took, when the pattern matched. *)
Lemma plus_greedy_inv k excluded s : forall taken groups,
  Re.plus_greedy k excluded taken s = Some groups ->
  exists run tail rest_groups,
    s = run +:+ tail /\ run <> "" /\ Str.free_of excluded run = true
    /\ k tail = Some rest_groups
    /\ groups = (taken +:+ run) :: rest_groups.
Proof.
  induction s as [|c s IH]; intros taken groups; [discriminate |].
  cbn [Re.plus_greedy].
  destruct (Str.in_chars c excluded) eqn:Hc; [discriminate |].
  destruct (Re.plus_greedy k excluded (taken +:+ String c "") s) as [g |] eqn:Hg.
  - intros [= <-]. apply IH in Hg as (run & tail & rg & -> & Hne & Hfree & Hk & ->).
    exists (String c run), tail, rg. repeat split; try easy.
    + cbn. now rewrite Hc.
    + now rewrite append_assoc.
  - destruct (k s) as [rg |] eqn:Hk; [| discriminate].
    intros [= <-]. exists (String c ""), s, rg. repeat split; try easy.
    cbn. now rewrite Hc.
Qed.

(** The last group of a pattern takes the longest run. *)
Lemma plus_greedy_last excluded s : forall taken groups,
  Re.plus_greedy (fun _ => Some []) excluded taken s = Some groups ->
  exists run tail,
    s = run +:+ tail /\ run <> "" /\ Str.free_of excluded run = true
    /\ Str.stops_at excluded tail = true
    /\ groups = [taken +:+ run].
Proof.
  induction s as [|c s IH]; intros taken groups; [discriminate |].
  cbn [Re.plus_greedy].
  destruct (Str.in_chars c excluded) eqn:Hc; [discriminate |].
  destruct (Re.plus_greedy _ excluded (taken +:+ String c "") s) as [g |] eqn:Hg.
  - intros [= <-]. apply IH in Hg as (run & tail & -> & Hne & Hfree & Hstop & ->).
    exists (String c run), tail. repeat split; try easy.
    + cbn. now rewrite Hc.
    + now rewrite append_assoc.
  - cbn [option_map]. intros [= <-]. exists (String c ""), s.
    repeat split; try easy.
    + cbn. now rewrite Hc.
    + destruct s as [|c' s']; [reflexivity |]. cbn [Str.stops_at].
      cbn [Re.plus_greedy] in Hg.
      destruct (Str.in_chars c' excluded); [reflexivity |].
      now destruct (Re.plus_greedy _ excluded _ s').
Qed.

Lemma search_inv p s groups :
  Re.search p s = Some groups ->
  exists pre suf, s = pre +:+ suf /\ Re.match_here p suf = Some groups.
Proof.
  induction s as [|c s IH]; cbn [Re.search].
  - destruct (Re.match_here p "") eqn:Hm; [| discriminate].
    intros [= <-]. now exists "", "".
  - destruct (Re.match_here p (String c s)) eqn:Hm.
    + intros [= <-]. now exists "", (String c s).
    + intros H. apply IH in H as (pre & suf & -> & H).
      now exists (String c pre), suf.
Qed.

Lemma match_here_lits_inv lit p s groups :
  Re.match_here (Re.lits lit ++ p) s = Some groups ->
  exists s', s = lit +:+ s' /\ Re.match_here p s' = Some groups.
Proof.
  revert s. induction lit as [|a lit IH]; intros s.
  - intros H. now exists s.
  - unfold Re.lits. cbn [list_ascii_of_string map app Re.match_here].
    destruct s as [|c s]; [discriminate |].
    destruct (Ascii.eqb c a) eqn:Hc; [| discriminate].
    apply Ascii.eqb_eq in Hc as ->. intros H.
    apply IH in H as (s' & -> & H). now exists s'.
Qed.

Lemma match_owner_repo_inv s groups :
  Re.match_here
    [Re.Group_plus_not ["/"%char]; Re.Lit "/"%char;
     Re.Group_plus_not ["/"%char; "."%char]] s = Some groups ->
  exists owner repo rest,
    groups = [owner; repo]
    /\ s = owner +:+ "/" +:+ repo +:+ rest
    /\ owner <> "" /\ Str.free_of ["/"]%char owner = true
    /\ repo <> "" /\ Str.free_of ["/"; "."]%char repo = true
    /\ Str.stops_at ["/"; "."]%char rest = true.
Proof.
  cbn [Re.match_here]. intros H.
  apply plus_greedy_inv in H as (owner & tail & rg & -> & Ho & Hof & Hk & ->).
  destruct tail as [|c tail]; [discriminate |].
  destruct (Ascii.eqb c "/") eqn:Hc; [| discriminate].
  apply Ascii.eqb_eq in Hc as ->.
  apply plus_greedy_last in Hk as (repo & rest & -> & Hr & Hrf & Hstop & ->).
  exists owner, repo, rest. repeat split; easy.
Qed.

(** X1: whenever [parse_github_url] returns a pair, the owner is a
    non-empty text without [/], the repo is a non-empty text without [/]
    and [.], and the URL reads: some prefix, then [github.com/] (or
    [git@github.com:] when the URL starts with [git@]), the owner, [/],
    the repo, and a rest that is empty or starts with [/] or [.]. *)
Theorem parse_github_url_sound (url owner repo : string) :
  parse_github_url url = Return (owner, repo) ->
  owner <> "" /\ Str.free_of ["/"]%char owner = true
  /\ repo <> "" /\ Str.free_of ["/"; "."]%char repo = true
  /\ exists pre rest,
       Str.stops_at ["/"; "."]%char rest = true
       /\ url = pre
                +:+ (if Str.startswith url "git@"
                     then "git@github.com:" else "github.com/")
                +:+ owner +:+ "/" +:+ repo +:+ rest.
Proof.
  unfold parse_github_url.
  destruct (Re.search _ url) as [m |] eqn:Hs; [| discriminate].
  intros [= <- <-].
  apply search_inv in Hs as (pre & suf & Hurl & Hm).
  assert (exists lit, (if Str.startswith url "git@"
                       then "git@github.com:" else "github.com/") = lit
                      /\ exists s', suf = lit +:+ s' /\
                           Re.match_here
                             [Re.Group_plus_not ["/"%char]; Re.Lit "/"%char;
                              Re.Group_plus_not ["/"%char; "."%char]] s'
                           = Some m) as (lit & Hlit & s' & -> & Hm').
  { destruct (Str.startswith url "git@"); eexists; (split; [reflexivity |]);
      now apply match_here_lits_inv. }
  apply match_owner_repo_inv in Hm'
    as (owner & repo & rest & -> & -> & Ho & Hof & Hr & Hrf & Hstop).
  cbn [Re.group Nat.sub nth]. repeat split; try easy.
  exists pre, rest. split; [exact Hstop |]. now rewrite Hlit.
Qed.

Lemma parse_github_url_sound_witness :
  parse_github_url "https://github.com/foo/bar.git/tree/main"
  = Return ("foo", "bar")
  /\ Str.free_of ["/"]%char "foo" = true
  /\ Str.free_of ["/"; "."]%char "bar" = true.
Proof.
  pose proof (parse_github_url_sound "https://github.com/foo/bar.git/tree/main"
                "foo" "bar" eq_refl) as (_ & Hfoo & _ & Hbar & _).
  split; [reflexivity |]. split; [exact Hfoo | exact Hbar].
Defined.

Lemma search_skip c0 p pre s :
  Str.free_of [c0] pre = true ->
  Re.search (Re.Lit c0 :: p) (pre +:+ s) = Re.search (Re.Lit c0 :: p) s.
Proof.
  induction pre as [|c pre IH]; [reflexivity |].
  cbn. rewrite orb_false_r. intros H. apply andb_true_iff in H as [Hc H].
  apply negb_true_iff in Hc. rewrite append_cons, search_miss by exact Hc.
  now apply IH.
Qed.

(** X2: the HTTPS pattern is searched for, not anchored: behind any
    prefix without the letter [g] (a scheme, [www.], the start of another
    host name), [github.com/owner/repo] followed by nothing, [/...] or
    [....] parses to [(owner, repo)] when the owner has no [/] and the
    repo has no [/] and no [.]. *)
Theorem parse_github_url_unanchored (pre owner repo rest : string) :
  Str.free_of ["g"]%char pre = true ->
  owner <> "" -> Str.free_of ["/"]%char owner = true ->
  repo <> "" -> Str.free_of ["/"; "."]%char repo = true ->
  Str.stops_at ["/"; "."]%char rest = true ->
  parse_github_url
    (pre +:+ "github.com/" +:+ owner +:+ "/" +:+ repo +:+ rest)
  = Return (owner, repo).
Proof.
  intros Hpre Ho Hof Hr Hrf Hrest. unfold parse_github_url.
  assert (Str.startswith
            (pre +:+ "github.com/" +:+ owner +:+ "/" +:+ repo +:+ rest) "git@"
          = false) as ->.
  { destruct pre as [|c pre]; [reflexivity |].
    cbn in Hpre. rewrite orb_false_r in Hpre.
    apply andb_true_iff in Hpre as [Hc _]. apply negb_true_iff in Hc.
    rewrite append_cons. cbn [Str.startswith].
    rewrite Ascii.eqb_sym, Hc. reflexivity. }
  unfold pattern_https, Re.lits. cbn [list_ascii_of_string map app].
  rewrite search_skip by exact Hpre.
  rewrite !append_cons, append_nil_l.
  rewrite (search_here _ _ [owner; repo]); [reflexivity |].
  rewrite !match_here_lit. now apply match_owner_repo.
Qed.

Lemma parse_github_url_unanchored_witness :
  parse_github_url "http://www.notgithub.com/foo/bar/issues/1"
  = Return ("foo", "bar").
Proof.
  exact (parse_github_url_unanchored "http://www.not" "foo" "bar" "/issues/1"
           eq_refl ltac:(discriminate) eq_refl ltac:(discriminate)
           eq_refl eq_refl).
Defined.

(** X3: an SSH URL [git@github.com:owner/repo], with or without the
    [.git] ending, parses to [(owner, repo)] when the owner has no [/] and
    the repo has no [/] and no [.]. *)
Theorem parse_github_url_ssh_form (owner repo : string) :
  owner <> "" -> Str.free_of ["/"]%char owner = true ->
  repo <> "" -> Str.free_of ["/"; "."]%char repo = true ->
  parse_github_url ("git@github.com:" +:+ owner +:+ "/" +:+ repo)
  = Return (owner, repo)
  /\ parse_github_url ("git@github.com:" +:+ owner +:+ "/" +:+ repo +:+ ".git")
     = Return (owner, repo).
Proof.
  intros Ho Hof Hr Hrf. split.
  - rewrite <- (append_empty_r repo) at 1. now apply parse_github_url_ssh.
  - now apply parse_github_url_ssh.
Qed.

Lemma parse_github_url_ssh_form_witness :
  parse_github_url "git@github.com:octo/demo" = Return ("octo", "demo")
  /\ parse_github_url "git@github.com:octo/demo.git" = Return ("octo", "demo").
Proof.
  exact (parse_github_url_ssh_form "octo" "demo"
           ltac:(discriminate) eq_refl ltac:(discriminate) eq_refl).
Defined.

Lemma free_of_app cs a b :
  Str.free_of cs (a +:+ b) = Str.free_of cs a && Str.free_of cs b.
Proof.
  induction a as [|c a IH]; [reflexivity |].
  rewrite append_cons. cbn. fold (Str.free_of cs (a +:+ b)).
  fold (Str.free_of cs a). now rewrite IH, andb_assoc.
Qed.

(** X4: a URL that starts with [git@] is matched against the SSH pattern
    only: without a [:] in it, it is refused, whatever else it holds
    (for instance [git@github.com/owner/repo]). *)
Theorem parse_github_url_git_at_needs_colon (url : string) :
  Str.startswith url "git@" = true ->
  Str.free_of [":"]%char url = true ->
  parse_github_url url = Raise invalid_url.
Proof.
  intros Hgit Hfree. unfold parse_github_url. rewrite Hgit.
  destruct (Re.search pattern_ssh url) as [m |] eqn:Hs; [| reflexivity].
  exfalso. apply search_inv in Hs as (pre & suf & -> & Hm).
  apply (match_here_lits_inv "git@github.com:") in Hm as (s' & -> & _).
  rewrite !free_of_app in Hfree.
  apply andb_true_iff in Hfree as [_ Hfree].
  apply andb_true_iff in Hfree as [Hfree _]. discriminate Hfree.
Qed.

Lemma parse_github_url_git_at_needs_colon_witness :
  parse_github_url "git@github.com/foo/bar" = Raise invalid_url.
Proof.
  exact (parse_github_url_git_at_needs_colon "git@github.com/foo/bar"
           eq_refl eq_refl).
Defined.

(** ** More on the relevance filter *)

(** X5: the filter works entry by entry: the relevant files of a
    concatenation are those of its parts, in order, and filtering a second
    time changes nothing. *)
Theorem extract_relevant_files_app (a b : list TreeEntry) :
  extract_relevant_files (a ++ b)
  = extract_relevant_files a ++ extract_relevant_files b
  /\ extract_relevant_files (extract_relevant_files a)
     = extract_relevant_files a.
Proof.
  rewrite !extract_relevant_files_filter. split.
  - apply List.filter_app.
  - induction a as [|x a IH]; [reflexivity |]. cbn [List.filter].
    destruct (is_relevant x) eqn:Hx; [| exact IH].
    cbn [List.filter]. now rewrite Hx, IH.
Qed.

(** ** More on the dependency extractor *)

Lemma without_chars_free cs s :
  Str.free_of cs (Stated.without_chars cs s) = true.
Proof.
  induction s as [|c s IH]; [reflexivity |]. cbn [Stated.without_chars].
  destruct (Str.in_chars c cs) eqn:Hc; [exact IH |].
  cbn. rewrite Hc. exact IH.
Qed.

Lemma lstrip_head s :
  Str.lstrip s = "" \/ exists c t, Str.lstrip s = String c t /\ Str.isspace c = false.
Proof.
  induction s as [|c s IH]; [now left |]. cbn [Str.lstrip].
  destruct (Str.isspace c) eqn:Hc; [exact IH |]. right. now exists c, s.
Qed.

Lemma rstrip_idem s : Str.rstrip (Str.rstrip s) = Str.rstrip s.
Proof.
  induction s as [|c s IH]; [reflexivity |]. cbn [Str.rstrip].
  destruct (Str.rstrip s) as [|c' r] eqn:Hr.
  - destruct (Str.isspace c) eqn:Hc; [reflexivity |].
    cbn [Str.rstrip]. now rewrite Hc.
  - cbn [Str.rstrip]. cbn [Str.rstrip] in IH.
    destruct (match Str.rstrip r with
              | "" => if Str.isspace c' then "" else String c' ""
              | String a s0 => String c' (String a s0)
              end) eqn:Hm; [discriminate IH |].
    now rewrite IH.
Qed.

Lemma rstrip_keeps_head c s :
  Str.isspace c = false ->
  exists t, Str.rstrip (String c s) = String c t.
Proof.
  intros Hc. cbn [Str.rstrip]. destruct (Str.rstrip s).
  - rewrite Hc. now exists "".
  - eexists; reflexivity.
Qed.

Lemma strip_idem s : Str.strip (Str.strip s) = Str.strip s.
Proof.
  unfold Str.strip.
  destruct (lstrip_head s) as [-> | (c & t & -> & Hc)]; [reflexivity |].
  destruct (rstrip_keeps_head c t Hc) as [u Hu]. rewrite Hu.
  cbn [Str.lstrip]. rewrite Hc, <- Hu. apply rstrip_idem.
Qed.

Lemma manifest_entries_invariant items ds :
  Stated.manifest_entries items = Return ds ->
  Forall (fun d => Dependency.description d = frontend_description
                   /\ Str.free_of ["^"; "~"]%char (Dependency.version d) = true)
         ds.
Proof.
  revert ds. induction items as [|[n v] rest IH]; intros ds.
  - intros [= <-]. constructor.
  - cbn [Stated.manifest_entries].
    destruct (Stated.manifest_entry (n, v)) as [d | e] eqn:Hd;
      cbn [mbind outcome_bind]; [| discriminate].
    destruct (Stated.manifest_entries rest) as [ds' | e];
      cbn [mbind outcome_bind]; [| discriminate].
    intros [= <-]. constructor; [| now apply IH].
    destruct v; try discriminate Hd. injection Hd as <-.
    split; [reflexivity | apply without_chars_free].
Qed.

Lemma manifest_invariant json_loads text ds :
  Stated.manifest json_loads text = Return ds ->
  Forall (fun d => Dependency.description d = frontend_description
                   /\ Str.free_of ["^"; "~"]%char (Dependency.version d) = true)
         ds.
Proof.
  unfold Stated.manifest. destruct text as [text |]; [| intros [= <-]; constructor].
  destruct (json_loads text) as [v | e].
  - destruct (Py.contains_key "dependencies" v) as [[|] | e];
      cbn [mbind outcome_bind]; try discriminate.
    + destruct (Py.getitem v "dependencies") as [d | e];
        cbn [mbind outcome_bind]; [| discriminate].
      destruct (Py.items d) as [items | e]; cbn [mbind outcome_bind];
        [| discriminate].
      apply manifest_entries_invariant.
    + intros [= <-]; constructor.
  - destruct (catches JSONDecodeError e); [| discriminate].
    intros [= <-]; constructor.
Qed.

Lemma requirement_invariant line :
  Forall (fun d => Dependency.description d = backend_description
                   /\ Str.strip (Dependency.name d) = Dependency.name d
                   /\ Str.strip (Dependency.version d) = Dependency.version d)
         (Stated.requirement line).
Proof.
  unfold Stated.requirement.
  destruct (Stated.is_blank line || Str.startswith line "#"); [constructor |].
  destruct (Stated.exact_pin line) as [[n v] |]; [| constructor].
  constructor; [| constructor]. unfold Stated.backend.
  cbn [Dependency.description Dependency.name Dependency.version].
  now rewrite !strip_idem.
Qed.

(** X6: every entry of the list [extract_dependencies] returns either
    carries the frontend description and a version without [^] and [~],
    or carries the backend description and a name and a version without
    white space at either end. *)
Theorem extract_dependencies_entries
    (json_loads : string -> outcome json)
    (files_data : gmap string string) (result : deps_json) :
  extract_dependencies json_loads files_data = Return result ->
  Forall (fun d =>
            (Dependency.description d = frontend_description
             /\ Str.free_of ["^"; "~"]%char (Dependency.version d) = true)
            \/ (Dependency.description d = backend_description
                /\ Str.strip (Dependency.name d) = Dependency.name d
                /\ Str.strip (Dependency.version d) = Dependency.version d))
         (dependencies result).
Proof.
  rewrite extract_dependencies_stated.
  destruct (Stated.manifest json_loads (files_data !! "package.json"))
    as [pkg | e] eqn:Hpkg; cbn [mbind outcome_bind]; [| discriminate].
  intros [= <-]. cbn [dependencies]. apply Forall_app. split.
  - eapply List.Forall_impl; [| exact (manifest_invariant _ _ _ Hpkg)].
    intros d Hd. now left.
  - unfold Stated.requirements.
    destruct (files_data !! "requirements.txt") as [text |]; [| constructor].
    induction (Str.split_char newline text) as [|line lines IH];
      [constructor |].
    cbn [flat_map]. apply Forall_app. split; [| exact IH].
    eapply List.Forall_impl; [| exact (requirement_invariant line)].
    intros d Hd. now right.
Qed.

Lemma extract_dependencies_entries_witness :
  Forall (fun d =>
            (Dependency.description d = frontend_description
             /\ Str.free_of ["^"; "~"]%char (Dependency.version d) = true)
            \/ (Dependency.description d = backend_description
                /\ Str.strip (Dependency.name d) = Dependency.name d
                /\ Str.strip (Dependency.version d) = Dependency.version d))
         [Stated.frontend "react" "18.2.0"; Stated.frontend "vite" "5.0.1";
          Stated.backend "flask" "2.0.1"; Stated.backend "requests" "2.31.0"].
Proof.
  exact (extract_dependencies_entries JsonBasic.json_loads
           Inputs.both_manifests
           {| dependencies :=
                [Stated.frontend "react" "18.2.0"; Stated.frontend "vite" "5.0.1";
                 Stated.backend "flask" "2.0.1";
                 Stated.backend "requests" "2.31.0"] |}
           ltac:(vm_compute; reflexivity)).
Defined.

(** X7: [extract_dependencies] reads the keys [package.json] and
    [requirements.txt] only: adding, changing or removing any other key
    of the content map leaves its result as it is. *)
Theorem extract_dependencies_other_keys
    (json_loads : string -> outcome json)
    (files_data : gmap string string) (key content : string) :
  key <> "package.json" ->
  key <> "requirements.txt" ->
  extract_dependencies json_loads (<[key := content]> files_data)
  = extract_dependencies json_loads files_data
  /\ extract_dependencies json_loads (delete key files_data)
     = extract_dependencies json_loads files_data.
Proof.
  intros Hp Hr. rewrite !extract_dependencies_stated.
  now rewrite !lookup_insert_ne, !lookup_delete_ne by congruence.
Qed.

Lemma extract_dependencies_other_keys_witness :
  extract_dependencies JsonBasic.json_loads
    (<["app.py" := "import flask"]> flask_requirements)
  = extract_dependencies JsonBasic.json_loads flask_requirements
  /\ extract_dependencies JsonBasic.json_loads
       (delete "app.py" flask_requirements)
     = extract_dependencies JsonBasic.json_loads flask_requirements.
Proof.
  exact (extract_dependencies_other_keys JsonBasic.json_loads
           flask_requirements "app.py" "import flask"
           ltac:(discriminate) ltac:(discriminate)).
Defined.

(** X8: a package.json that parses to an object without the key
    [dependencies] (development dependencies only, say) contributes no
    entry: the result is the list of the requirements.txt entries. *)
Theorem extract_dependencies_no_dependencies_key
    (json_loads : string -> outcome json)
    (files_data : gmap string string) (text : string)
    (top : list (string * json)) :
  files_data !! "package.json" = Some text ->
  json_loads text = Return (JObject top) ->
  Py.lookup "dependencies" top = None ->
  extract_dependencies json_loads files_data
  = Return {| dependencies :=
                Stated.requirements (files_data !! "requirements.txt") |}.
Proof.
  intros Hfile Hload Hkey. rewrite extract_dependencies_stated, Hfile.
  unfold Stated.manifest. rewrite Hload. cbn [Py.contains_key].
  now rewrite Hkey.
Qed.

Lemma extract_dependencies_no_dependencies_key_witness :
  extract_dependencies JsonBasic.json_loads Inputs.dev_only
  = Return {| dependencies := [Stated.backend "flask" "2.0.1"] |}.
Proof.
  exact (extract_dependencies_no_dependencies_key JsonBasic.json_loads
           Inputs.dev_only
           (JsonBasic.dq "{'devDependencies': {'jest': '^29.0.0'}}")
           [("devDependencies", JObject [("jest", JString "^29.0.0")])]
           eq_refl eq_refl eq_refl).
Defined.

Lemma manifest_entries_not_string pre n v post :
  (forall s, v <> JString s) ->
  Stated.manifest_entries (Stated.string_items pre ++ (n, v) :: post)
  = Raise (Py.no_attribute v "replace").
Proof.
  intros Hv. induction pre as [|[n' v'] pre IH].
  - cbn [Stated.string_items map app Stated.manifest_entries].
    destruct v; try reflexivity. now destruct (Hv s).
  - cbn [Stated.string_items map app Stated.manifest_entries
         Stated.manifest_entry mbind outcome_bind].
    fold (Stated.string_items pre). now rewrite IH.
Qed.

(** X9: when a version of the [dependencies] object is not a string (a
    number, a nested object, [null]), [extract_dependencies] raises the
    [AttributeError] of the missing [replace]: nothing is returned, not
    even the entries before it or those of requirements.txt. *)
Theorem extract_dependencies_version_not_string
    (json_loads : string -> outcome json)
    (files_data : gmap string string) (text : string)
    (top : list (string * json)) (before : list (string * string))
    (name : string) (version : json) (after : list (string * json)) :
  files_data !! "package.json" = Some text ->
  json_loads text = Return (JObject top) ->
  Py.lookup "dependencies" top
  = Some (JObject (Stated.string_items before ++ (name, version) :: after)) ->
  (forall s, version <> JString s) ->
  extract_dependencies json_loads files_data
  = Raise (Exn AttributeError
               ("'" +:+ Py.type_name version
                +:+ "' object has no attribute 'replace'")).
Proof.
  intros Hfile Hload Hdeps Hv. rewrite extract_dependencies_stated, Hfile.
  unfold Stated.manifest. rewrite Hload.
  cbn [Py.contains_key Py.getitem]. rewrite Hdeps.
  cbn [mbind outcome_bind Py.items].
  now rewrite manifest_entries_not_string.
Qed.

Lemma extract_dependencies_version_not_string_witness :
  extract_dependencies JsonBasic.json_loads Inputs.numeric_version
  = Raise (Exn AttributeError "'int' object has no attribute 'replace'").
Proof.
  exact (extract_dependencies_version_not_string JsonBasic.json_loads
           Inputs.numeric_version
           (JsonBasic.dq "{'dependencies': {'a': '^1.0.0', 'b': 2}}")
           [("dependencies", JObject [("a", JString "^1.0.0"); ("b", JNumber "2")])]
           [("a", "^1.0.0")] "b" (JNumber "2") []
           eq_refl eq_refl eq_refl ltac:(discriminate)).
Defined.

(** X10: when [dependencies] is there but is not an object (a list, a
    string, [null]), [extract_dependencies] raises the [AttributeError]
    of the missing [items]. *)
Theorem extract_dependencies_not_an_object
    (json_loads : string -> outcome json)
    (files_data : gmap string string) (text : string)
    (top : list (string * json)) (declared : json) :
  files_data !! "package.json" = Some text ->
  json_loads text = Return (JObject top) ->
  Py.lookup "dependencies" top = Some declared ->
  (forall items, declared <> JObject items) ->
  extract_dependencies json_loads files_data
  = Raise (Exn AttributeError
               ("'" +:+ Py.type_name declared
                +:+ "' object has no attribute 'items'")).
Proof.
  intros Hfile Hload Hdeps Hv. rewrite extract_dependencies_stated, Hfile.
  unfold Stated.manifest. rewrite Hload.
  cbn [Py.contains_key Py.getitem]. rewrite Hdeps.
  cbn [mbind outcome_bind].
  destruct declared; try reflexivity. now destruct (Hv items).
Qed.

Lemma extract_dependencies_not_an_object_witness :
  extract_dependencies JsonBasic.json_loads Inputs.listed_dependencies
  = Raise (Exn AttributeError "'list' object has no attribute 'items'").
Proof.
  exact (extract_dependencies_not_an_object JsonBasic.json_loads
           Inputs.listed_dependencies
           (JsonBasic.dq "{'dependencies': ['react']}")
           [("dependencies", JArray [JString "react"])]
           (JArray [JString "react"])
           eq_refl eq_refl eq_refl ltac:(discriminate)).
Defined.

(** X11: when package.json parses to [null], a boolean or a number, the
    membership test [in] raises a [TypeError], which the [except] for
    [JSONDecodeError] does not catch: [extract_dependencies] raises it. *)
Theorem extract_dependencies_scalar_manifest
    (json_loads : string -> outcome json)
    (files_data : gmap string string) (text : string) (v : json) :
  files_data !! "package.json" = Some text ->
  json_loads text = Return v ->
  (v = JNull \/ (exists b, v = JBool b) \/ (exists lexeme, v = JNumber lexeme)) ->
  extract_dependencies json_loads files_data
  = Raise (Exn TypeError
               ("argument of type '" +:+ Py.type_name v +:+ "' is not iterable")).
Proof.
  intros Hfile Hload Hv. rewrite extract_dependencies_stated, Hfile.
  unfold Stated.manifest. rewrite Hload.
  destruct Hv as [-> | [[b ->] | [lexeme ->]]]; reflexivity.
Qed.

Lemma extract_dependencies_scalar_manifest_witness :
  extract_dependencies JsonBasic.json_loads Inputs.null_manifest
  = Raise (Exn TypeError "argument of type 'NoneType' is not iterable").
Proof.
  exact (extract_dependencies_scalar_manifest JsonBasic.json_loads
           Inputs.null_manifest "null" JNull eq_refl eq_refl
           ltac:(now left)).
Defined.

(** ** The content fetcher *)

Section FetchFacts.

Variable requests_get : string -> list (string * string) -> outcome Http.Response.

Local Abbreviation fetch files acc := (fetch_contents requests_get files acc).
Local Abbreviation content_of file :=
  (get_file_content requests_get (download_url file)).

Lemma fetch_contents_app pre post acc :
  fetch (pre ++ post) acc = (mid ← fetch pre acc; fetch post mid).
Proof.
  revert acc. induction pre as [|f pre IH]; intros acc; [reflexivity |].
  cbn [app fetch_contents].
  destruct (content_of f) as [c | e]; cbn [mbind outcome_bind]; [apply IH | reflexivity].
Qed.

Lemma fetch_contents_untouched files : forall acc m n,
  fetch files acc = Return m ->
  ~ In n (map name files) ->
  m !! n = acc !! n.
Proof.
  induction files as [|f files IH]; intros acc m n.
  - now intros [= <-].
  - cbn [fetch_contents map In].
    destruct (content_of f) as [c | e]; cbn [mbind outcome_bind]; [| discriminate].
    intros Hm Hn. rewrite (IH _ _ _ Hm) by tauto.
    apply lookup_insert_ne. tauto.
Qed.

Lemma fetch_contents_last pre f post acc m :
  fetch (pre ++ f :: post) acc = Return m ->
  ~ In (name f) (map name post) ->
  exists c, content_of f = Return c /\ m !! name f = Some c.
Proof.
  rewrite fetch_contents_app.
  destruct (fetch pre acc) as [mid | e]; cbn [mbind outcome_bind]; [| discriminate].
  cbn [fetch_contents].
  destruct (content_of f) as [c | e]; cbn [mbind outcome_bind]; [| discriminate].
  intros Hm Hn. exists c. split; [reflexivity |].
  rewrite (fetch_contents_untouched _ _ _ _ Hm Hn). apply lookup_insert_eq.
Qed.

Lemma fetch_contents_raises pre f post acc e :
  Forall (fun g => returns (content_of g)) pre ->
  content_of f = Raise e ->
  fetch (pre ++ f :: post) acc = Raise e.
Proof.
  intros Hpre Hf. revert acc.
  induction Hpre as [|g pre [c Hc] _ IH]; intros acc.
  - cbn [app fetch_contents]. now rewrite Hf.
  - cbn [app fetch_contents]. rewrite Hc. cbn [mbind outcome_bind]. apply IH.
Qed.

End FetchFacts.

(** X12: in the content map built from the relevant files, a name maps
    to the content fetched for the last file of that name (files of the
    same name in different directories overwrite one another), and a name
    that no file carries is absent. *)
Theorem fetch_contents_last_wins
    (requests_get : string -> list (string * string) -> outcome Http.Response)
    (files : list TreeEntry) (files_content : gmap string string) :
  fetch_contents requests_get files ∅ = Return files_content ->
  (forall pre f post,
      files = pre ++ f :: post ->
      ~ In (name f) (map name post) ->
      exists content,
        get_file_content requests_get (download_url f) = Return content
        /\ files_content !! name f = Some content)
  /\ (forall n, ~ In n (map name files) -> files_content !! n = None).
Proof.
  intros Hm. split.
  - intros pre f post -> Hlast.
    now apply (fetch_contents_last requests_get pre f post ∅).
  - intros n Hn.
    now rewrite (fetch_contents_untouched requests_get files ∅ _ n Hm Hn).
Qed.

Lemma fetch_contents_last_wins_witness :
  fetch_contents Inputs.raw_get [Demo.readme; Inputs.docs_readme] ∅
  = Return {[ "README.md" := "# docs" ]}
  /\ exists content,
       get_file_content Inputs.raw_get (download_url Inputs.docs_readme)
       = Return content
       /\ ({[ "README.md" := "# docs" ]} : gmap string string) !! "README.md"
          = Some content.
Proof.
  assert (fetch_contents Inputs.raw_get [Demo.readme; Inputs.docs_readme] ∅
          = Return {[ "README.md" := "# docs" ]}) as Hrun.
  { vm_compute. reflexivity. }
  split; [exact Hrun |].
  exact (proj1 (fetch_contents_last_wins Inputs.raw_get
                  [Demo.readme; Inputs.docs_readme] _ Hrun)
           [Demo.readme] Inputs.docs_readme [] eq_refl (fun H => H)).
Defined.

(** X13: a download answered with a status other than 200 does not stop
    the batch: when every request is answered, the content map is built,
    and the file whose download failed (if no later file has its name)
    maps to the empty string. *)
Theorem fetch_contents_failed_download
    (requests_get : string -> list (string * string) -> outcome Http.Response)
    (pre post : list TreeEntry) (f : TreeEntry) (response : Http.Response) :
  (forall url h, returns (requests_get url h)) ->
  requests_get (download_url f) [] = Return response ->
  Http.status_code response <> 200 ->
  ~ In (name f) (map name post) ->
  exists files_content,
    fetch_contents requests_get (pre ++ f :: post) ∅ = Return files_content
    /\ files_content !! name f = Some "".
Proof.
  intros Hans Hf Hstatus Hlast.
  destruct (fetch_contents_returns requests_get Hans (pre ++ f :: post) ∅)
    as [m Hm].
  exists m. split; [exact Hm |].
  destruct (fetch_contents_last requests_get pre f post ∅ m Hm Hlast)
    as (c & Hc & Hlook).
  unfold get_file_content in Hc. rewrite Hf in Hc. cbn [mbind outcome_bind] in Hc.
  apply Nat.eqb_neq in Hstatus. rewrite Hstatus in Hc.
  injection Hc as <-. exact Hlook.
Qed.

Lemma fetch_contents_failed_download_witness :
  exists files_content,
    fetch_contents Demo.requests_get [Demo.readme; Demo.app_py] ∅
    = Return files_content
    /\ files_content !! "app.py" = Some "".
Proof.
  apply (fetch_contents_failed_download Demo.requests_get [Demo.readme] []
           Demo.app_py
           {| Http.status_code := 404; Http.json := [];
              Http.text := "Not Found" |}).
  - intros url h. unfold Demo.requests_get.
    destruct (String.eqb _ _); [eexists; reflexivity |].
    destruct (String.eqb _ _); eexists; reflexivity.
  - reflexivity.
  - cbn. lia.
  - intros [].
Defined.

(** X14: the first download that raises aborts the batch: when the
    downloads of the files before [f] return and that of [f] raises [e],
    the content map is not built and [e] is raised, whatever follows. *)
Theorem fetch_contents_aborts
    (requests_get : string -> list (string * string) -> outcome Http.Response)
    (pre post : list TreeEntry) (f : TreeEntry)
    (files_content : gmap string string) (e : exn) :
  Forall (fun g => returns (requests_get (download_url g) [])) pre ->
  requests_get (download_url f) [] = Raise e ->
  fetch_contents requests_get (pre ++ f :: post) files_content = Raise e.
Proof.
  intros Hpre Hf. apply fetch_contents_raises.
  - eapply List.Forall_impl; [| exact Hpre]. intros g [r Hr].
    unfold get_file_content. rewrite Hr. cbn [mbind outcome_bind].
    destruct (Http.status_code r =? 200); eexists; reflexivity.
  - unfold get_file_content. now rewrite Hf.
Qed.

Lemma fetch_contents_aborts_witness :
  fetch_contents Inputs.raw_get
    ([Demo.readme; Demo.app_py] ++ Inputs.setup_py :: [Inputs.docs_readme]) ∅
  = Raise Inputs.timeout.
Proof.
  apply (fetch_contents_aborts Inputs.raw_get [Demo.readme; Demo.app_py]
           [Inputs.docs_readme] Inputs.setup_py ∅ Inputs.timeout).
  - repeat constructor; eexists; reflexivity.
  - reflexivity.
Defined.

(** ** More on the scanner *)

Section ScanErrors.

Variable headers : list (string * string).
Variable requests_get : string -> list (string * string) -> outcome Http.Response.
Variables owner repo : string.

Lemma scan_items_raises scan pre d post acc e :
  (forall g, In g pre -> type g = "dir" ->
             exists files, scan (path g) = Some (Return files)) ->
  type d = "dir" ->
  scan (path d) = Some (Raise e) ->
  scan_items scan (pre ++ d :: post) acc = Some (Raise e).
Proof.
  intros Hpre Hd He. revert acc.
  induction pre as [|g pre IH]; intros acc.
  - cbn [app scan_items]. rewrite Hd. cbn [String.eqb Ascii.eqb Bool.eqb].
    now rewrite He.
  - cbn [app scan_items].
    destruct (String.eqb (type g) "file");
      [apply IH; intros; apply Hpre; [now right | assumption] |].
    destruct (String.eqb (type g) "dir") eqn:Hg;
      [| apply IH; intros; apply Hpre; [now right | assumption]].
    apply String.eqb_eq in Hg.
    destruct (Hpre g (or_introl eq_refl) Hg) as [files ->].
    apply IH. intros; apply Hpre; [now right | assumption].
Qed.

End ScanErrors.

(** X15: an exception of a listing request is not recovered: when the
    listing of [p] holds a directory [d] whose scan raises [e], and the
    directories listed before [d] were scanned, the scan of [p] raises
    [e]; the files collected so far are not returned. *)
Theorem scan_directory_raises
    (headers : list (string * string))
    (requests_get : string -> list (string * string) -> outcome Http.Response)
    (owner repo p : string) (n : nat) (response : Http.Response)
    (pre post : list TreeEntry) (d : TreeEntry) (e : exn) :
  requests_get (contents_url owner repo p) headers = Return response ->
  Http.status_code response = 200 ->
  Http.json response = pre ++ d :: post ->
  (forall g, In g pre -> type g = "dir" ->
             exists files,
               scan_directory headers requests_get n owner repo (path g)
               = Some (Return files)) ->
  type d = "dir" ->
  scan_directory headers requests_get n owner repo (path d) = Some (Raise e) ->
  scan_directory headers requests_get (S n) owner repo p = Some (Raise e).
Proof.
  intros Hget Hstatus Hjson Hpre Hd He.
  cbn [scan_directory]. unfold get_repo_contents.
  rewrite Hget. cbn [mbind outcome_bind]. rewrite Hstatus, Hjson.
  cbn [Nat.eqb].
  rewrite (scan_items_raises _ pre d post [] e Hpre Hd He).
  now destruct pre.
Qed.

Lemma scan_directory_raises_witness :
  scan_repo [] Inputs.flaky_get 2 "octo" "demo" = Some (Raise Inputs.timeout).
Proof.
  apply (scan_directory_raises [] Inputs.flaky_get "octo" "demo" "" 1
           {| Http.status_code := 200;
              Http.json := [Demo.readme; Demo.broken; Demo.src];
              Http.text := "" |}
           [Demo.readme; Demo.broken] [] Demo.src Inputs.timeout);
    try reflexivity.
  intros g [<- | [<- | []]] Hg; [discriminate Hg |].
  exists []. reflexivity.
Defined.

(** ** More on the summarizer *)

Section SummarizerEffects.

Variable json_loads : string -> outcome json.
Variable json_dumps : json -> string.
Variable json_dumps_files : gmap string string -> string.
Variable model : Type.
Variable GenerativeModel : string -> outcome model.
Variable generate_content : model -> string -> outcome Genai.Response.

Local Abbreviation summarize files_data fs :=
  (summarize_repo json_loads json_dumps json_dumps_files model
     GenerativeModel generate_content files_data fs).

(** The runs of [summarize_repo]: the file system is as it was, or the
    output file was written with the string that is returned. *)
Lemma summarize_repo_runs files_data fs :
  (exists s, summarize files_data fs = (fs, Return s)
             /\ (s = ""
                 \/ (exists e, s = "Error generating summary: " +:+ exn_str e)))
  \/ (exists deps t,
        extract_dependencies json_loads files_data = Return deps
        /\ (output_file ∉ unwritable fs)
        /\ summarize files_data fs
           = ({| contents :=
                   <[output_file :=
                       json_dumps (analysis_result t (dependencies deps))]>
                     (contents fs);
                 unwritable := unwritable fs |},
              Return (json_dumps (analysis_result t (dependencies deps))))).
Proof.
  unfold summarize_repo, summarize_repo_body.
  destruct (GenerativeModel model_name) as [m | e]; [| left; eauto].
  destruct (extract_dependencies json_loads files_data) as [deps | e];
    [| left; eauto].
  destruct (generate_content m _) as [r | e]; [| left; eauto].
  destruct (Genai.truthy r); [| left; eauto].
  destruct (Genai.text r) as [t | e]; [| left; eauto].
  unfold write_file. destruct (decide (output_file ∈ unwritable fs));
    [left; eauto |].
  right. now exists deps, t.
Qed.

End SummarizerEffects.

(** X16: the only file [summarize_repo] can change is the output file:
    every other path keeps its content, the set of unwritable paths is
    the same, and when the file system did change, the output file holds
    exactly the string that is returned. *)
Theorem summarize_repo_file_effect
    (json_loads : string -> outcome json) (json_dumps : json -> string)
    (json_dumps_files : gmap string string -> string) (model : Type)
    (GenerativeModel : string -> outcome model)
    (generate_content : model -> string -> outcome Genai.Response)
    (files_data : gmap string string) (fs : FileSystem) :
  let run :=
    summarize_repo json_loads json_dumps json_dumps_files model
      GenerativeModel generate_content files_data fs in
  unwritable (fst run) = unwritable fs
  /\ (forall p, p <> output_file ->
                contents (fst run) !! p = contents fs !! p)
  /\ exists s, snd run = Return s
               /\ (fst run = fs \/ contents (fst run) !! output_file = Some s).
Proof.
  intros run. subst run.
  destruct (summarize_repo_runs json_loads json_dumps json_dumps_files model
              GenerativeModel generate_content files_data fs)
    as [(s & -> & _) | (deps & t & _ & _ & ->)]; cbn [fst snd].
  - repeat split; eauto.
  - cbn [contents unwritable]. repeat split.
    + intros p Hp. now apply lookup_insert_ne.
    + eexists. split; [reflexivity |]. right. apply lookup_insert_eq.
Qed.

(** X17: the string [summarize_repo] returns is empty, or the text
    [Error generating summary: ] followed by the text of an exception, or
    the serialisation of the object with the key [summary] and, under
    [dependencies], the list [extract_dependencies] returns for the same
    content map. *)
Theorem summarize_repo_result
    (json_loads : string -> outcome json) (json_dumps : json -> string)
    (json_dumps_files : gmap string string -> string) (model : Type)
    (GenerativeModel : string -> outcome model)
    (generate_content : model -> string -> outcome Genai.Response)
    (files_data : gmap string string) (fs : FileSystem) :
  exists s,
    snd (summarize_repo json_loads json_dumps json_dumps_files model
           GenerativeModel generate_content files_data fs) = Return s
    /\ (s = ""
        \/ (exists e, s = "Error generating summary: " +:+ exn_str e)
        \/ (exists deps t,
              extract_dependencies json_loads files_data = Return deps
              /\ s = json_dumps
                       (JObject
                          [("summary", JString t);
                           ("dependencies",
                            JArray (map dependency_json (dependencies deps)))]))).
Proof.
  destruct (summarize_repo_runs json_loads json_dumps json_dumps_files model
              GenerativeModel generate_content files_data fs)
    as [(s & -> & [-> | He]) | (deps & t & Hd & _ & ->)]; cbn [snd].
  - exists "". auto.
  - exists s. auto.
  - eexists. split; [reflexivity |]. right. right. now exists deps, t.
Qed.

(** X18: when [extract_dependencies] raises (a version that is a number,
    say), [summarize_repo] returns the error text of that exception
    whatever the language model would answer, and writes nothing. *)
Theorem summarize_repo_extractor_raises
    (json_loads : string -> outcome json) (json_dumps : json -> string)
    (json_dumps_files : gmap string string -> string) (model : Type)
    (GenerativeModel : string -> outcome model)
    (generate_content : model -> string -> outcome Genai.Response)
    (files_data : gmap string string) (fs : FileSystem) (m : model) (e : exn) :
  GenerativeModel model_name = Return m ->
  extract_dependencies json_loads files_data = Raise e ->
  summarize_repo json_loads json_dumps json_dumps_files model
    GenerativeModel generate_content files_data fs
  = (fs, Return ("Error generating summary: " +:+ exn_str e)).
Proof.
  intros Hm He. unfold summarize_repo, summarize_repo_body.
  now rewrite Hm, He.
Qed.

Lemma summarize_repo_extractor_raises_witness :
  summarize_repo JsonBasic.json_loads JsonBasic.json_dumps
    JsonBasic.json_dumps_files unit Demo.GenerativeModel Demo.llm_answering
    Inputs.numeric_version Demo.empty_fs
  = (Demo.empty_fs,
     Return "Error generating summary: 'int' object has no attribute 'replace'").
Proof.
  exact (summarize_repo_extractor_raises JsonBasic.json_loads
           JsonBasic.json_dumps JsonBasic.json_dumps_files unit
           Demo.GenerativeModel Demo.llm_answering Inputs.numeric_version
           Demo.empty_fs tt
           (Exn AttributeError "'int' object has no attribute 'replace'")
           eq_refl ltac:(vm_compute; reflexivity)).
Defined.

(** X19: when the output file cannot be opened for writing,
    [summarize_repo] leaves the file system as it was; if the model
    answered with a text, the string returned is the error text of the
    refused [open], and the summary is lost. *)
Theorem summarize_repo_unwritable
    (json_loads : string -> outcome json) (json_dumps : json -> string)
    (json_dumps_files : gmap string string -> string) (model : Type)
    (GenerativeModel : string -> outcome model)
    (generate_content : model -> string -> outcome Genai.Response)
    (files_data : gmap string string) (fs : FileSystem) :
  output_file ∈ unwritable fs ->
  fst (summarize_repo json_loads json_dumps json_dumps_files model
         GenerativeModel generate_content files_data fs) = fs
  /\ (forall m deps r t,
        GenerativeModel model_name = Return m ->
        extract_dependencies json_loads files_data = Return deps ->
        generate_content m (prompt json_dumps_files files_data) = Return r ->
        Genai.truthy r = true ->
        Genai.text r = Return t ->
        snd (summarize_repo json_loads json_dumps json_dumps_files model
               GenerativeModel generate_content files_data fs)
        = Return ("Error generating summary: "
                  +:+ "[Errno 13] Permission denied: 'repo_analysis.json'")).
Proof.
  intros Hw. split.
  - destruct (summarize_repo_runs json_loads json_dumps json_dumps_files model
                GenerativeModel generate_content files_data fs)
      as [(s & -> & _) | (deps & t & _ & Hnot & _)]; [reflexivity |].
    now destruct Hnot.
  - intros m deps r t Hm Hd Hg Ht Htext.
    unfold summarize_repo, summarize_repo_body, write_file.
    rewrite Hm, Hd, Hg, Ht, Htext.
    now destruct (decide (output_file ∈ unwritable fs)).
Qed.

Lemma summarize_repo_unwritable_witness :
  summarize_repo JsonBasic.json_loads JsonBasic.json_dumps
    JsonBasic.json_dumps_files unit Demo.GenerativeModel Demo.llm_answering
    flask_requirements Inputs.read_only_fs
  = (Inputs.read_only_fs,
     Return ("Error generating summary: "
             +:+ "[Errno 13] Permission denied: 'repo_analysis.json'")).
Proof.
  pose proof (summarize_repo_unwritable JsonBasic.json_loads
                JsonBasic.json_dumps JsonBasic.json_dumps_files unit
                Demo.GenerativeModel Demo.llm_answering flask_requirements
                Inputs.read_only_fs
                ltac:(unfold Inputs.read_only_fs; cbn [unwritable];
                      now apply elem_of_singleton_2))
    as [Hfs Hs].
  specialize (Hs tt {| dependencies := [Stated.backend "flask" "2.0.1"] |}
                {| Genai.truthy := true;
                   Genai.text := Return "Nothing to summarize." |}
                "Nothing to summarize." eq_refl eq_refl eq_refl eq_refl eq_refl).
  destruct (summarize_repo _ _ _ _ _ _ flask_requirements Inputs.read_only_fs)
    as [fs' r]. cbn [fst snd] in Hfs, Hs. now rewrite Hfs, Hs.
Defined.

(** X20: the output file is overwritten, not appended to: what it held
    before a run has no influence on the string returned, nor, when the
    run writes, on the file system after it. *)
Theorem summarize_repo_overwrites
    (json_loads : string -> outcome json) (json_dumps : json -> string)
    (json_dumps_files : gmap string string -> string) (model : Type)
    (GenerativeModel : string -> outcome model)
    (generate_content : model -> string -> outcome Genai.Response)
    (files_data : gmap string string) (fs : FileSystem) (old : string) :
  let before :=
    {| contents := <[output_file := old]> (contents fs);
       unwritable := unwritable fs |} in
  let run :=
    summarize_repo json_loads json_dumps json_dumps_files model
      GenerativeModel generate_content files_data fs in
  let rerun :=
    summarize_repo json_loads json_dumps json_dumps_files model
      GenerativeModel generate_content files_data before in
  snd rerun = snd run
  /\ (fst run <> fs -> fst rerun = fst run).
Proof.
  intros before run rerun. subst run rerun.
  unfold summarize_repo, summarize_repo_body.
  destruct (GenerativeModel model_name) as [m | e]; [| now split].
  destruct (extract_dependencies json_loads files_data) as [deps | e];
    [| now split].
  destruct (generate_content m _) as [r | e]; [| now split].
  destruct (Genai.truthy r); [| now split].
  destruct (Genai.text r) as [t | e]; [| now split].
  unfold write_file. subst before. cbn [unwritable contents].
  destruct (decide (output_file ∈ unwritable fs)); [now split |].
  cbn [fst snd]. split; [reflexivity |]. intros _.
  now rewrite insert_insert_eq.
Qed.

Lemma summarize_repo_overwrites_witness :
  fst (summarize_repo JsonBasic.json_loads JsonBasic.json_dumps
         JsonBasic.json_dumps_files unit Demo.GenerativeModel
         Demo.llm_answering flask_requirements
         {| contents := <[output_file := "an older result"]> ∅;
            unwritable := ∅ |})
  = fst (summarize_repo JsonBasic.json_loads JsonBasic.json_dumps
           JsonBasic.json_dumps_files unit Demo.GenerativeModel
           Demo.llm_answering flask_requirements Demo.empty_fs).
Proof.
  apply (proj2 (summarize_repo_overwrites JsonBasic.json_loads
                  JsonBasic.json_dumps JsonBasic.json_dumps_files unit
                  Demo.GenerativeModel Demo.llm_answering flask_requirements
                  Demo.empty_fs "an older result")).
  vm_compute. discriminate.
Defined.

(** ** More on the pipeline *)

Section PipelineRuns.

Variable json_loads : string -> outcome json.
Variable json_dumps : json -> string.
Variable json_dumps_files : gmap string string -> string.
Variable headers : list (string * string).
Variable requests_get : string -> list (string * string) -> outcome Http.Response.
Variable model : Type.
Variable GenerativeModel : string -> outcome model.
Variable generate_content : model -> string -> outcome Genai.Response.

Local Abbreviation analyze fuel url fs :=
  (analyze_github_repo json_loads json_dumps json_dumps_files headers
     requests_get model GenerativeModel generate_content fuel url fs).
Local Abbreviation summarize files_data fs :=
  (summarize_repo json_loads json_dumps json_dumps_files model
     GenerativeModel generate_content files_data fs).

(** The run after a scan that returned. *)
Lemma analyze_github_repo_scanned fuel url fs owner repo repo_data files_content :
  parse_github_url url = Return (owner, repo) ->
  scan_repo headers requests_get fuel owner repo = Some (Return repo_data) ->
  fetch_contents requests_get (extract_relevant_files repo_data) ∅
  = Return files_content ->
  exists s,
    snd (summarize files_content fs) = Return s
    /\ analyze fuel url fs = Some (fst (summarize files_content fs), Some s).
Proof.
  intros Hparse Hscan Hfetch. unfold analyze_github_repo.
  rewrite Hparse, Hscan, Hfetch.
  destruct (summarize_repo_returns json_loads json_dumps json_dumps_files
              model GenerativeModel generate_content files_content fs)
    as [s Hs].
  exists s. split; [exact Hs |].
  destruct (summarize files_content fs) as [fs' r]. cbn [fst snd] in *.
  now subst r.
Qed.

Lemma analyze_github_repo_fetch_raises fuel url fs owner repo repo_data e :
  parse_github_url url = Return (owner, repo) ->
  scan_repo headers requests_get fuel owner repo = Some (Return repo_data) ->
  fetch_contents requests_get (extract_relevant_files repo_data) ∅ = Raise e ->
  analyze fuel url fs = Some (fs, None).
Proof.
  intros Hparse Hscan Hfetch. unfold analyze_github_repo.
  now rewrite Hparse, Hscan, Hfetch.
Qed.

Lemma analyze_github_repo_files fuel url fs fs' result :
  analyze fuel url fs = Some (fs', result) ->
  unwritable fs' = unwritable fs
  /\ (forall p, p <> output_file -> contents fs' !! p = contents fs !! p)
  /\ (result = None -> fs' = fs).
Proof.
  unfold analyze_github_repo.
  destruct (parse_github_url url) as [[owner repo] | e];
    [| now intros [= <- <-]].
  destruct (scan_repo headers requests_get fuel owner repo)
    as [[repo_data | e] |]; [| now intros [= <- <-] | discriminate].
  destruct (fetch_contents requests_get _ ∅) as [files_content | e];
    [| now intros [= <- <-]].
  pose proof (summarize_repo_runs json_loads json_dumps json_dumps_files model
                GenerativeModel generate_content files_content fs) as Hruns.
  destruct Hruns as [(s & -> & _) | (deps & t & _ & _ & ->)].
  - now intros [= <- <-].
  - intros [= <- <-]. cbn [contents unwritable]. repeat split; try easy.
    intros p Hp. now apply lookup_insert_ne.
Qed.

End PipelineRuns.

(** X21: a repository whose root listing fails (an unknown repository, a
    refused token, an exhausted rate limit) is analysed as an empty one:
    the run is not aborted, the model is asked about the empty content
    map, and the result of the run is that of [summarize_repo] on it. *)
Theorem analyze_github_repo_unknown_repo
    (json_loads : string -> outcome json) (json_dumps : json -> string)
    (json_dumps_files : gmap string string -> string)
    (headers : list (string * string))
    (requests_get : string -> list (string * string) -> outcome Http.Response)
    (model : Type) (GenerativeModel : string -> outcome model)
    (generate_content : model -> string -> outcome Genai.Response)
    (url owner repo : string) (n : nat) (fs : FileSystem) :
  parse_github_url url = Return (owner, repo) ->
  Tree.listing_fails headers requests_get owner repo "" ->
  exists s,
    snd (summarize_repo json_loads json_dumps json_dumps_files model
           GenerativeModel generate_content ∅ fs) = Return s
    /\ analyze_github_repo json_loads json_dumps json_dumps_files headers
         requests_get model GenerativeModel generate_content (S n) url fs
       = Some (fst (summarize_repo json_loads json_dumps json_dumps_files
                      model GenerativeModel generate_content ∅ fs),
               Some s).
Proof.
  intros Hparse Hfails.
  apply (analyze_github_repo_scanned json_loads json_dumps json_dumps_files
           headers requests_get model GenerativeModel generate_content
           (S n) url fs owner repo [] ∅ Hparse); [| reflexivity].
  now apply failed_listing_dead_end.
Qed.

Lemma analyze_github_repo_unknown_repo_witness :
  analyze_github_repo JsonBasic.json_loads JsonBasic.json_dumps
    JsonBasic.json_dumps_files [] Demo.requests_get unit
    Demo.GenerativeModel Demo.llm_answering 1
    "https://github.com/nobody/nothing" Demo.empty_fs
  = Some ({| contents :=
               {[ output_file :=
                    JsonBasic.json_dumps
                      (analysis_result "Nothing to summarize." []) ]};
             unwritable := ∅ |},
          Some (JsonBasic.json_dumps
                  (analysis_result "Nothing to summarize." []))).
Proof.
  destruct (analyze_github_repo_unknown_repo JsonBasic.json_loads
              JsonBasic.json_dumps JsonBasic.json_dumps_files []
              Demo.requests_get unit Demo.GenerativeModel Demo.llm_answering
              "https://github.com/nobody/nothing" "nobody" "nothing" 0
              Demo.empty_fs eq_refl)
    as [s [Hs Hrun]].
  - eexists. split; [reflexivity |]. cbn. lia.
  - rewrite Hrun. vm_compute in Hs. injection Hs as <-.
    vm_compute. reflexivity.
Defined.

Lemma fetch_contents_downloads_answered
    (requests_get : string -> list (string * string) -> outcome Http.Response)
    (files : list TreeEntry) :
  (forall u, returns (requests_get u [])) ->
  forall acc, returns (fetch_contents requests_get files acc).
Proof.
  intros Hans. induction files as [|file rest IH]; intros acc.
  - eexists; reflexivity.
  - cbn [fetch_contents]. unfold get_file_content.
    destruct (Hans (download_url file)) as [r ->]. cbn [mbind outcome_bind].
    destruct (Http.status_code r =? 200); cbn [mbind outcome_bind]; apply IH.
Qed.

(** X22: once the scan has returned its list of files, a run in which
    every download is answered, with whatever status, is complete: the
    content map of the relevant files is built and the run returns the
    string of [summarize_repo] on that map, never [None]. *)
Theorem analyze_github_repo_after_scan
    (json_loads : string -> outcome json) (json_dumps : json -> string)
    (json_dumps_files : gmap string string -> string)
    (headers : list (string * string))
    (requests_get : string -> list (string * string) -> outcome Http.Response)
    (model : Type) (GenerativeModel : string -> outcome model)
    (generate_content : model -> string -> outcome Genai.Response)
    (url owner repo : string) (fuel : nat) (fs : FileSystem)
    (repo_data : list TreeEntry) :
  parse_github_url url = Return (owner, repo) ->
  scan_repo headers requests_get fuel owner repo = Some (Return repo_data) ->
  (forall u, returns (requests_get u [])) ->
  exists files_content s,
    fetch_contents requests_get (extract_relevant_files repo_data) ∅
    = Return files_content
    /\ snd (summarize_repo json_loads json_dumps json_dumps_files model
              GenerativeModel generate_content files_content fs) = Return s
    /\ analyze_github_repo json_loads json_dumps json_dumps_files headers
         requests_get model GenerativeModel generate_content fuel url fs
       = Some (fst (summarize_repo json_loads json_dumps json_dumps_files
                      model GenerativeModel generate_content files_content fs),
               Some s).
Proof.
  intros Hparse Hscan Hans.
  destruct (fetch_contents_downloads_answered requests_get
              (extract_relevant_files repo_data) Hans ∅)
    as [files_content Hfetch].
  exists files_content.
  destruct (analyze_github_repo_scanned json_loads json_dumps json_dumps_files
              headers requests_get model GenerativeModel generate_content
              fuel url fs owner repo repo_data files_content
              Hparse Hscan Hfetch) as [s [Hs Hrun]].
  now exists s.
Qed.

Lemma demo_all_answered : forall u h, returns (Demo.requests_get u h).
Proof.
  intros u h. unfold Demo.requests_get.
  destruct (String.eqb _ _); [eexists; reflexivity |].
  destruct (String.eqb _ _); eexists; reflexivity.
Qed.

Lemma analyze_github_repo_after_scan_witness :
  exists files_content s,
    fetch_contents Demo.requests_get [Demo.readme; Demo.app_py] ∅
    = Return files_content
    /\ snd (summarize_repo JsonBasic.json_loads JsonBasic.json_dumps
              JsonBasic.json_dumps_files unit Demo.GenerativeModel
              Demo.llm_answering files_content Demo.empty_fs) = Return s
    /\ analyze_github_repo JsonBasic.json_loads JsonBasic.json_dumps
         JsonBasic.json_dumps_files [] Demo.requests_get unit
         Demo.GenerativeModel Demo.llm_answering 2
         "https://github.com/octo/demo" Demo.empty_fs
       = Some (fst (summarize_repo JsonBasic.json_loads JsonBasic.json_dumps
                      JsonBasic.json_dumps_files unit Demo.GenerativeModel
                      Demo.llm_answering files_content Demo.empty_fs),
               Some s).
Proof.
  exact (analyze_github_repo_after_scan JsonBasic.json_loads
           JsonBasic.json_dumps JsonBasic.json_dumps_files []
           Demo.requests_get unit Demo.GenerativeModel Demo.llm_answering
           "https://github.com/octo/demo" "octo" "demo" 2 Demo.empty_fs
           [Demo.readme; Demo.app_py] eq_refl eq_refl
           (fun u => demo_all_answered u [])).
Defined.

(** X23: a run of [analyze_github_repo] can change one file only, the
    output file: every other path keeps its content; and a run that
    returns [None] leaves the file system as it was. *)
Theorem analyze_github_repo_file_effect
    (json_loads : string -> outcome json) (json_dumps : json -> string)
    (json_dumps_files : gmap string string -> string)
    (headers : list (string * string))
    (requests_get : string -> list (string * string) -> outcome Http.Response)
    (model : Type) (GenerativeModel : string -> outcome model)
    (generate_content : model -> string -> outcome Genai.Response)
    (fuel : nat) (url : string) (fs fs' : FileSystem)
    (result : option string) :
  analyze_github_repo json_loads json_dumps json_dumps_files headers
    requests_get model GenerativeModel generate_content fuel url fs
  = Some (fs', result) ->
  unwritable fs' = unwritable fs
  /\ (forall p, p <> output_file -> contents fs' !! p = contents fs !! p)
  /\ (result = None -> fs' = fs).
Proof. apply analyze_github_repo_files. Qed.

Lemma analyze_github_repo_file_effect_witness :
  contents
    {| contents :=
         <[output_file :=
             JsonBasic.json_dumps
               (analysis_result "Nothing to summarize." [])]>
           (contents Inputs.used_fs);
       unwritable := ∅ |} !! "notes.txt"
  = contents Inputs.used_fs !! "notes.txt".
Proof.
  refine (proj1 (proj2 (analyze_github_repo_file_effect JsonBasic.json_loads
                          JsonBasic.json_dumps JsonBasic.json_dumps_files []
                          Demo.requests_get unit Demo.GenerativeModel
                          Demo.llm_answering 2 "https://github.com/octo/demo"
                          Inputs.used_fs _ _ _)) "notes.txt" _).
  - vm_compute. reflexivity.
  - discriminate.
Defined.

(** X24: after a scan that succeeded, a download that raises aborts the
    run: when the relevant files of the flattened tree are [pre], [f] and
    more, the downloads of [pre] are answered and that of [f] raises, the
    run returns [None] and nothing is written. *)
Theorem analyze_github_repo_download_raises
    (json_loads : string -> outcome json) (json_dumps : json -> string)
    (json_dumps_files : gmap string string -> string)
    (headers : list (string * string))
    (requests_get : string -> list (string * string) -> outcome Http.Response)
    (model : Type) (GenerativeModel : string -> outcome model)
    (generate_content : model -> string -> outcome Genai.Response)
    (url owner repo : string) (n : nat) (fs : FileSystem)
    (pre post : list TreeEntry) (f : TreeEntry) (e : exn) :
  parse_github_url url = Return (owner, repo) ->
  Tree.answered headers requests_get owner repo ->
  Tree.depth_le headers requests_get owner repo n "" ->
  extract_relevant_files (Tree.flatten headers requests_get owner repo n "")
  = pre ++ f :: post ->
  Forall (fun g => returns (requests_get (download_url g) [])) pre ->
  requests_get (download_url f) [] = Raise e ->
  analyze_github_repo json_loads json_dumps json_dumps_files headers
    requests_get model GenerativeModel generate_content n url fs
  = Some (fs, None).
Proof.
  intros Hparse Hans Hdepth Hfiles Hpre Hf.
  apply (analyze_github_repo_fetch_raises json_loads json_dumps
           json_dumps_files headers requests_get model GenerativeModel
           generate_content n url fs owner repo
           (Tree.flatten headers requests_get owner repo n "") e Hparse).
  - now apply scan_directory_flatten.
  - rewrite Hfiles. apply fetch_contents_raises.
    + eapply List.Forall_impl; [| exact Hpre]. intros g [r Hr].
      unfold get_file_content. rewrite Hr. cbn [mbind outcome_bind].
      destruct (Http.status_code r =? 200); eexists; reflexivity.
    + unfold get_file_content. now rewrite Hf.
Qed.

Lemma raw_offline_answered :
  Tree.answered [] Inputs.raw_offline "octo" "demo".
Proof.
  intros p. unfold Inputs.raw_offline.
  replace (Str.startswith (contents_url "octo" "demo" p)
             "https://api.github.com/") with true by reflexivity.
  apply demo_all_answered.
Qed.

Lemma raw_offline_depth :
  Tree.depth_le [] Inputs.raw_offline "octo" "demo" 2 "".
Proof.
  constructor. intros d Hin Hdir. vm_compute in Hin.
  destruct Hin as [<- | [<- | [<- | []]]]; [discriminate Hdir | |];
    constructor; intros d' Hin' Hdir'; vm_compute in Hin'.
  - destruct Hin'.
  - destruct Hin' as [<- | []]. discriminate Hdir'.
Qed.

Lemma analyze_github_repo_download_raises_witness :
  analyze_github_repo JsonBasic.json_loads JsonBasic.json_dumps
    JsonBasic.json_dumps_files [] Inputs.raw_offline unit
    Demo.GenerativeModel Demo.llm_answering 2
    "https://github.com/octo/demo" Inputs.used_fs
  = Some (Inputs.used_fs, None).
Proof.
  apply (analyze_github_repo_download_raises JsonBasic.json_loads
           JsonBasic.json_dumps JsonBasic.json_dumps_files []
           Inputs.raw_offline unit Demo.GenerativeModel Demo.llm_answering
           "https://github.com/octo/demo" "octo" "demo" 2 Inputs.used_fs
           [] [Demo.app_py] Demo.readme Inputs.timeout eq_refl
           raw_offline_answered raw_offline_depth).
  - vm_compute. reflexivity.
  - constructor.
  - reflexivity.
Defined.

(** ** The script entry *)

(** X25: the exit status says nothing about the analysis: it is 1 exactly
    when the line typed is empty, and then nothing was done; for every
    other input that lets the run end (an invalid URL, a refused request,
    an unreachable network, an interrupted prompt) it is 0. *)
Theorem main_exit_status
    (json_loads : string -> outcome json) (json_dumps : json -> string)
    (json_dumps_files : gmap string string -> string)
    (headers : list (string * string))
    (requests_get : string -> list (string * string) -> outcome Http.Response)
    (model : Type) (GenerativeModel : string -> outcome model)
    (generate_content : model -> string -> outcome Genai.Response)
    (fuel : nat) (typed : outcome string) (fs fs' : FileSystem)
    (status : nat) :
  main json_loads json_dumps json_dumps_files headers requests_get model
    GenerativeModel generate_content fuel typed fs = Some (fs', status) ->
  (typed = Return "" -> status = 1 /\ fs' = fs)
  /\ (typed <> Return "" -> status = 0).
Proof.
  unfold main. destruct typed as [github_url | e].
  - destruct (String.eqb github_url "") eqn:Hurl.
    + apply String.eqb_eq in Hurl as ->. intros [= <- <-]. now split.
    + apply String.eqb_neq in Hurl.
      destruct (analyze_github_repo _ _ _ _ _ _ _ _ fuel github_url fs)
        as [[fs1 r] |]; [| discriminate].
      intros [= <- <-]. split; [| reflexivity].
      intros [= ->]. now destruct Hurl.
  - intros [= <- <-]. split; [discriminate | reflexivity].
Qed.

Lemma main_exit_status_witness :
  main JsonBasic.json_loads JsonBasic.json_dumps JsonBasic.json_dumps_files
    [] Demo.unreachable unit Demo.GenerativeModel Demo.llm_answering 1
    (Return "https://github.com/foo/bar") Demo.empty_fs
  = Some (Demo.empty_fs, 0).
Proof.
  assert (exists fs' status,
            main JsonBasic.json_loads JsonBasic.json_dumps
              JsonBasic.json_dumps_files [] Demo.unreachable unit
              Demo.GenerativeModel Demo.llm_answering 1
              (Return "https://github.com/foo/bar") Demo.empty_fs
            = Some (fs', status) /\ fs' = Demo.empty_fs)
    as (fs' & status & Hrun & ->).
  { eexists _, _. split; reflexivity. }
  rewrite Hrun. f_equal. f_equal.
  exact (proj2 (main_exit_status JsonBasic.json_loads JsonBasic.json_dumps
                  JsonBasic.json_dumps_files [] Demo.unreachable unit
                  Demo.GenerativeModel Demo.llm_answering 1
                  (Return "https://github.com/foo/bar") Demo.empty_fs
                  Demo.empty_fs status Hrun)
           ltac:(discriminate)).
Defined.

(** ** Pinned lines *)

Lemma find2_pin name version :
  Str.free_of ["="]%char name = true ->
  Stated.find2 "=" "=" (name +:+ "==" +:+ version) = Some (name, version).
Proof.
  intros Hfree. induction name as [|c name IH]; [reflexivity |].
  cbn in Hfree. rewrite orb_false_r in Hfree.
  apply andb_true_iff in Hfree as [Hc Hfree]. apply negb_true_iff in Hc.
  specialize (IH Hfree). rewrite append_cons.
  destruct (name +:+ "==" +:+ version) as [|b rest] eqn:Hrest.
  - destruct name; discriminate Hrest.
  - rewrite find2_cons2, IH, Hc. reflexivity.
Qed.

Lemma is_blank_app a b :
  Stated.is_blank (a +:+ b) = Stated.is_blank a && Stated.is_blank b.
Proof.
  induction a as [|c a IH]; [reflexivity |].
  now rewrite append_cons, !is_blank_cons, IH, andb_assoc.
Qed.

Lemma startswith_nil s : Str.startswith s "" = true.
Proof. now destruct s. Qed.

Lemma startswith_hash_app name rest :
  Str.startswith (name +:+ "==" +:+ rest) "#" = Str.startswith name "#".
Proof.
  destruct name as [|c name]; [reflexivity |].
  rewrite append_cons. cbn [Str.startswith].
  now rewrite !startswith_nil.
Qed.

(** X26: a line [name==version] in which the name has no [=] and does
    not start with [#], and the version has no [==], adds one entry: the
    name and the version without the white space around them. Whatever
    follows the pin on the line, an inline comment included, is part of
    the version. *)
Theorem requirements_line_pinned
    (dependencies : list Dependency.t) (name version : string) :
  Str.free_of ["="]%char name = true ->
  Str.startswith name "#" = false ->
  Stated.find2 "=" "=" version = None ->
  requirements_line dependencies (name +:+ "==" +:+ version)
  = dependencies
    ++ [{| Dependency.name := Str.strip name;
           Dependency.version := Str.strip version;
           Dependency.description := backend_description |}].
Proof.
  intros Hname Hhash Hversion.
  rewrite requirements_line_stated. f_equal.
  unfold Stated.requirement, Stated.exact_pin.
  rewrite !is_blank_app, startswith_hash_app, Hhash, find2_pin, Hversion
    by exact Hname.
  replace (Stated.is_blank "==") with false by reflexivity.
  now rewrite andb_false_l, andb_false_r.
Qed.

Lemma requirements_line_pinned_witness :
  requirements_line [] "flask == 2.0.1  # pinned for the demo"
  = [Stated.backend "flask" "2.0.1  # pinned for the demo"].
Proof.
  exact (requirements_line_pinned [] "flask " " 2.0.1  # pinned for the demo"
           eq_refl eq_refl eq_refl).
Defined.
